(** * Verification of [backend/scripts/remove_unused_swagger_endpoints.py]

    The script copies [swagger.yaml] to a time-stamped backup, parses it,
    deletes a literal list of entries from its [paths] mapping, appends a
    note to [info.description], writes the document back and writes a
    Markdown report; an [except Exception] handler around the steps after
    the backup copies the backup over the source and re-raises.

    The embedding follows the script statement by statement.

    - A parsed document is a store of Python objects: [yaml.safe_load]
      builds one [dict] or [list] per YAML node and a YAML alias denotes the
      very object of its anchor, so two places of a document may hold the
      same mutable object.  Values are scalars or references into the store.
    - Python's dynamically typed operators ([in], [x[k]], [del x[k]],
      [x[k] = v], [len], [.get]) are total functions into [result]: applied
      to an operand of the wrong type they raise, as CPython does.
    - The file system is a finite map from path to content.  What the
      environment decides (the YAML library, the clock, I/O errors) is a
      record [env] that the run receives.
    - A path is the string the script writes; the report renders the
      backup path as that string, which is what [str] of a [Path] gives on
      a POSIX system.
    - A call that writes a file can raise after part of the text has
      reached it: [open(..., 'w')] and [shutil.copy2] empty the destination
      before they write, and [copy2] can still raise once the content is
      copied in full (while it copies the file's metadata).
    - [print] encodes its line for standard output and raises
      [UnicodeEncodeError] when the encoding lacks a character.  The lines
      printed at 106, 107, 113, 117 and 195 have characters outside ASCII
      and are modelled; the other lines (20, 74, 85, 89, 92, 102) hold
      ASCII text only, which every encoding Python gives standard output
      has, and are left out.  What is printed carries no state.
    - A standard output that is closed, and asynchronous interrupts, are
      outside the model. *)

From stdpp Require Import base option list strings gmap fin_maps pretty.

(** ** Exceptions and results *)

(** The classes of exception the script can meet; all derive from
    [Exception]. *)
Inductive exn :=
  | TypeError
  | AttributeError
  | KeyError
  | FileNotFoundError
  | YAMLError
  | UnicodeDecodeError
  | UnicodeEncodeError
  | OSError (errno : nat).

Inductive result (A : Type) :=
  | Ok (a : A)
  | Raise (e : exn).
Arguments Ok {A} a.
Arguments Raise {A} e.

#[global] Instance result_ret : MRet result := λ A a, Ok a.
#[global] Instance result_bind : MBind result := λ A B f m,
  match m with
  | Ok a => f a
  | Raise e => Raise e
  end.

(** ** Python values *)

Abbreviation loc := positive.

(** A dictionary key.  The script only ever looks keys up by a [str]; a key
    of another hashable type (int, bool, None, float, date) never compares
    equal to a [str] and is kept with its rendering. *)
Inductive key :=
  | KStr (s : string)
  | KOther (rendering : string).

(** A value: an immutable scalar, or a reference to a container object.
    [VOther] stands for the remaining scalars [safe_load] builds (float,
    date, timestamp, bytes), kept with their [str()] rendering; none of them
    supports [str in x], subscripting or [.get]. *)
Inductive value :=
  | VNone
  | VBool (b : bool)
  | VInt (n : Z)
  | VStr (s : string)
  | VOther (rendering : string)
  | VRef (l : loc).

(** A [dict] keeps its insertion order ([yaml.dump] is called with
    [sort_keys=False]). *)
Abbreviation dict := (list (key * value)).

(** A container object.  [OList] also stands for a [set]: on every
    operation the script uses, the two agree. *)
Inductive obj :=
  | ODict (d : dict)
  | OList (xs : list value).

Abbreviation heap := (gmap positive obj).

Record document := Document { doc_heap : heap; doc_root : value }.

#[global] Instance key_eq_dec : EqDecision key.
Proof. solve_decision. Defined.

#[global] Instance value_eq_dec : EqDecision value.
Proof. solve_decision. Defined.

Definition key_to_sum (k : key) : string + string :=
  match k with
  | KStr s => inl s
  | KOther s => inr s
  end.

Definition key_of_sum (x : string + string) : key :=
  match x with
  | inl s => KStr s
  | inr s => KOther s
  end.

#[global] Instance key_countable : Countable key.
Proof. apply (inj_countable' key_to_sum key_of_sum). by intros []. Defined.

(** ** Dictionaries *)

Definition dict_keys (d : dict) : list key := d.*1.

Fixpoint dict_lookup (k : key) (d : dict) : option value :=
  match d with
  | [] => None
  | (k', v) :: d' => if decide (k' = k) then Some v else dict_lookup k d'
  end.

(** [del d[k]]: the other entries keep their order. *)
Definition dict_delete (k : key) (d : dict) : dict :=
  filter (λ kv, kv.1 ≠ k) d.

(** [d[k] = v]: an existing key keeps its position, a new one goes last. *)
Fixpoint dict_insert (k : key) (v : value) (d : dict) : dict :=
  match d with
  | [] => [(k, v)]
  | (k', v') :: d' =>
      if decide (k' = k) then (k, v) :: d' else (k', v') :: dict_insert k v d'
  end.

Definition dict_key_set (d : dict) : gset key := list_to_set (dict_keys d).

(** ** Python operators, on operands of any type *)

(** [needle in hay] for two [str]: substring test. *)
Fixpoint str_contains (needle hay : string) : bool :=
  String.prefix needle hay ||
  match hay with
  | EmptyString => false
  | String _ hay' => str_contains needle hay'
  end.

(** [x in c] for a [str] [x]. *)
Definition py_contains (h : heap) (x : string) (c : value) : result bool :=
  match c with
  | VStr s => Ok (str_contains x s)
  | VRef l =>
      match h !! l with
      | Some (ODict d) => Ok (bool_decide (KStr x ∈ dict_keys d))
      | Some (OList xs) => Ok (bool_decide (VStr x ∈ xs))
      | None => Raise TypeError
      end
  | VNone | VBool _ | VInt _ | VOther _ => Raise TypeError
  end.

(** [c[k]] for a [str] [k]. *)
Definition py_getitem (h : heap) (c : value) (k : string) : result value :=
  match c with
  | VRef l =>
      match h !! l with
      | Some (ODict d) =>
          match dict_lookup (KStr k) d with
          | Some v => Ok v
          | None => Raise KeyError
          end
      | _ => Raise TypeError
      end
  | _ => Raise TypeError
  end.

(** [del c[k]] for a [str] [k]. *)
Definition py_delitem (h : heap) (c : value) (k : string) : result heap :=
  match c with
  | VRef l =>
      match h !! l with
      | Some (ODict d) =>
          if bool_decide (KStr k ∈ dict_keys d)
          then Ok (<[l := ODict (dict_delete (KStr k) d)]> h)
          else Raise KeyError
      | _ => Raise TypeError
      end
  | _ => Raise TypeError
  end.

(** [c[k] = v] for a [str] [k]. *)
Definition py_setitem (h : heap) (c : value) (k : string) (v : value)
  : result heap :=
  match c with
  | VRef l =>
      match h !! l with
      | Some (ODict d) => Ok (<[l := ODict (dict_insert (KStr k) v d)]> h)
      | _ => Raise TypeError
      end
  | _ => Raise TypeError
  end.

(** [len(c)]. *)
Definition py_len (h : heap) (c : value) : result nat :=
  match c with
  | VStr s => Ok (String.length s)
  | VRef l =>
      match h !! l with
      | Some (ODict d) => Ok (length d)
      | Some (OList xs) => Ok (length xs)
      | None => Raise TypeError
      end
  | VNone | VBool _ | VInt _ | VOther _ => Raise TypeError
  end.

(** [c.get(k, default)] for a [str] [k]. *)
Definition py_get (h : heap) (c : value) (k : string) (default : value)
  : result value :=
  match c with
  | VRef l =>
      match h !! l with
      | Some (ODict d) =>
          match dict_lookup (KStr k) d with
          | Some v => Ok v
          | None => Ok default
          end
      | _ => Raise AttributeError
      end
  | _ => Raise AttributeError
  end.

(** [{}]: a new empty dictionary. *)
Definition py_new_dict (h : heap) : heap * value :=
  let l := fresh (dom h) in (<[l := ODict []]> h, VRef l).

(** ** The removal list, lines 24-70 *)

Definition unused_endpoints : list string :=
  [ "/journal-entries/auto-generate/purchase";
    "/journal-entries/auto-generate/sale";
    "/journal-entries/{id}/post";
    "/journal-entries/{id}/reverse";
    "/journal-entries/summary";
    "/accounts/{account_id}/journal-entries";
    "/api/admin/check-cashbank-gl-links";
    "/api/admin/fix-cashbank-gl-links";
    "/api/monitoring/balance-health";
    "/api/monitoring/balance-sync";
    "/api/monitoring/discrepancies";
    "/api/monitoring/fix-discrepancies";
    "/api/monitoring/sync-status";
    "/api/payments/debug/recent";
    "/api/payments/analytics";
    "/api/payments/export/excel";
    "/api/payments/report/pdf";
    "/api/payments/{id}/pdf";
    "/api/reports/enhanced/financial-metrics";
    "/api/reports/enhanced/profit-loss";
    "/api/reports/enhanced/profit-loss-comparison";
    "/api/v1/admin/security/alerts";
    "/api/v1/admin/security/alerts/{id}/acknowledge";
    "/api/v1/admin/security/cleanup";
    "/api/v1/admin/security/config";
    "/api/v1/admin/security/incidents";
    "/api/v1/admin/security/incidents/{id}";
    "/api/v1/admin/security/incidents/{id}/resolve";
    "/api/v1/admin/security/ip-whitelist";
    "/api/v1/admin/security/metrics" ].

(** The removal list as a set of keys. *)
Definition targets : gset key := list_to_set (KStr <$> unused_endpoints).

(** ** The endpoint remover, lines 79-92 *)

(** The [for] loop of lines 83-89.  [swagger_data['paths']] is evaluated
    anew at each use, as in the source. *)
Fixpoint remove_loop (swagger_data : value) (endpoints : list string)
    (h : heap) (removed_count : nat) : result (heap * nat) :=
  match endpoints with
  | [] => Ok (h, removed_count)
  | endpoint :: rest =>
      paths ← py_getitem h swagger_data "paths";
      found ← py_contains h endpoint paths;
      if found : bool then
        paths ← py_getitem h swagger_data "paths";
        h' ← py_delitem h paths endpoint;
        remove_loop swagger_data rest h' (S removed_count)
      else
        remove_loop swagger_data rest h removed_count
  end.

(** Lines 79-92, for the removal list [endpoints]; the two [len] calls only
    feed a progress line, but they raise on an operand without a length. *)
Definition remove_endpoints (endpoints : list string) (h : heap)
    (swagger_data : value) : result (heap * nat) :=
  has_paths ← py_contains h "paths" swagger_data;
  if has_paths : bool then
    paths ← py_getitem h swagger_data "paths";
    original_count ← py_len h paths;
    '(h', removed_count) ← remove_loop swagger_data endpoints h 0;
    paths ← py_getitem h' swagger_data "paths";
    new_count ← py_len h' paths;
    Ok (h', removed_count)
  else
    Ok (h, 0).

(** ** The description annotator, lines 95-99 *)

Definition nl : string := String (Ascii.ascii_of_nat 10) EmptyString.

(** The note of line 99; [today] is [datetime.now().strftime('%Y-%m-%d')]. *)
Definition cleanup_note (today : string) : string :=
  nl +:+ nl +:+
  "NOTE: Unused endpoints have been removed based on frontend usage analysis performed on "
  +:+ today +:+ ".".

Section Annotator.

(** [repr] of a container object is CPython's own; the script formats the
    old description with it only when that description is a [list] or a
    [dict], and nothing below depends on its text. *)
Variable py_repr : heap → loc → string.

(** What an f-string field [{v}] renders. *)
Definition py_format (h : heap) (v : value) : string :=
  match v with
  | VNone => "None"
  | VBool true => "True"
  | VBool false => "False"
  | VInt n => pretty n
  | VStr s => s
  | VOther s => s
  | VRef l => py_repr h l
  end.

Definition annotate (h : heap) (swagger_data : value) (today : string)
  : result heap :=
  has_info ← py_contains h "info" swagger_data;
  h ← (if has_info : bool then Ok h
       else let '(h0, empty) := py_new_dict h in
            py_setitem h0 swagger_data "info" empty);
  info ← py_getitem h swagger_data "info";
  original_description ← py_get h info "description" (VStr "");
  let description :=
    py_format h original_description +:+ cleanup_note today in
  info ← py_getitem h swagger_data "info";
  py_setitem h info "description" (VStr description).

(** Lines 79-99: what the script does to the parsed document. *)
Definition clean_document (h : heap) (swagger_data : value) (today : string)
  : result (heap * nat) :=
  '(h, removed_count) ← remove_endpoints unused_endpoints h swagger_data;
  h ← annotate h swagger_data today;
  Ok (h, removed_count).

End Annotator.

(** ** The report, lines 125-190 *)

Definition unlines (ls : list string) : string :=
  foldr (λ l rest, l +:+ nl +:+ rest) "" ls.

(** The summary block; [now] is [datetime.now().strftime('%Y-%m-%d %H:%M:%S')]. *)
Definition report_summary (now : string) (unused_endpoints : list string)
    (removed_count : nat) (backup_file : string) : list string :=
  [ "# Swagger Cleanup Report";
    "";
    "## Summary";
    "- **Date**: " +:+ now;
    "- **Total endpoints targeted for removal**: " +:+ pretty (length unused_endpoints);
    "- **Successfully removed**: " +:+ pretty removed_count;
    "- **Backup location**: " +:+ backup_file;
    "" ].

(** The enumeration of endpoints: literal text of the template. *)
Definition report_listing : list string :=
  [ "## Removed Endpoints";
    "";
    "### Journal Entry Operations";
    "- `/journal-entries/auto-generate/purchase` (POST)";
    "- `/journal-entries/auto-generate/sale` (POST)";
    "- `/journal-entries/{id}/post` (POST)";
    "- `/journal-entries/{id}/reverse` (POST)";
    "- `/journal-entries/summary` (GET)";
    "";
    "### Account Operations";
    "- `/accounts/{account_id}/journal-entries` (GET)";
    "";
    "### Admin Operations  ";
    "- `/api/admin/check-cashbank-gl-links` (GET)";
    "- `/api/admin/fix-cashbank-gl-links` (POST)";
    "";
    "### Balance Monitoring";
    "- `/api/monitoring/balance-health` (GET)";
    "- `/api/monitoring/balance-sync` (GET)";
    "- `/api/monitoring/discrepancies` (GET)";
    "- `/api/monitoring/fix-discrepancies` (POST)";
    "- `/api/monitoring/sync-status` (GET)";
    "";
    "### Payment Analytics & Export";
    "- `/api/payments/debug/recent` (GET)";
    "- `/api/payments/analytics` (GET)";
    "- `/api/payments/export/excel` (GET)";
    "- `/api/payments/report/pdf` (GET)";
    "- `/api/payments/{id}/pdf` (GET)";
    "";
    "### Enhanced Reports";
    "- `/api/reports/enhanced/financial-metrics` (GET)";
    "- `/api/reports/enhanced/profit-loss` (GET)";
    "- `/api/reports/enhanced/profit-loss-comparison` (GET)";
    "";
    "### Security Dashboard";
    "- `/api/v1/admin/security/alerts` (GET)";
    "- `/api/v1/admin/security/alerts/{id}/acknowledge` (PUT)";
    "- `/api/v1/admin/security/cleanup` (POST)";
    "- `/api/v1/admin/security/config` (GET)";
    "- `/api/v1/admin/security/incidents` (GET)";
    "- `/api/v1/admin/security/incidents/{id}` (GET)";
    "- `/api/v1/admin/security/incidents/{id}/resolve` (PUT)";
    "- `/api/v1/admin/security/ip-whitelist` (GET, POST)";
    "- `/api/v1/admin/security/metrics` (GET)";
    "" ].

(** The notes, which repeat the backup location. *)
Definition report_notes (backup_file : string) : list string :=
  [ "## Notes";
    "- All removed endpoints were identified as unused based on comprehensive frontend code analysis";
    "- Backend implementation remains intact - only Swagger documentation was cleaned";
    "- Some endpoints may be used by external integrations or admin tools not covered in this analysis";
    "- To restore original Swagger file, use the backup located at: `" +:+ backup_file +:+ "`";
    "" ].

(** The closing checklist. *)
Definition report_next_steps : list string :=
  [ "## Next Steps";
    "1. ‚úÖ Swagger documentation cleaned";
    "2. ‚è≥ Test Swagger UI to ensure it loads correctly";
    "3. ‚è≥ Verify API documentation reflects only used endpoints";
    "4. üìã Consider implementing any useful endpoints that should be in frontend" ].

Definition report_content (now : string) (unused_endpoints : list string)
    (removed_count : nat) (backup_file : string) : string :=
  unlines (report_summary now unused_endpoints removed_count backup_file
           ++ report_listing ++ report_notes backup_file ++ report_next_steps).

(** ** Files and the environment *)

Abbreviation files := (gmap string string).

(** The calls of the script that touch a file. *)
Inductive io_call :=
  | BackupCopy      (* line 21:  shutil.copy2(swagger_file, backup_file) *)
  | OpenSource      (* line 75:  open(swagger_file, 'r') *)
  | RewriteSource   (* line 103: open(swagger_file, 'w') *)
  | WriteReport     (* line 192: open(report_file, 'w') and f.write *)
  | RestoreCopy.    (* line 116: shutil.copy2(backup_file, swagger_file) *)

(** The printed lines that have characters outside ASCII. *)
Inductive printed_line :=
  | Line106   (* the count of removed endpoints *)
  | Line107   (* the backup path *)
  | Line113   (* in the handler, before the restoring copy: the exception *)
  | Line117   (* in the handler, after the restoring copy *)
  | Line195.  (* in [generate_cleanup_report], after the report is written *)

(** What the run does not decide itself.
    - [safe_load text]: the document [yaml.safe_load] builds from the text
      of the file, or the error it raises (decoding errors included).
    - [dump D]: the text [yaml.dump] writes for [D] and, when it raises
      part-way, the exception; the text is then what reached the file.
    - [container_repr]: CPython's [repr] of a container.
    - the three readings of the clock, as [strftime] formats them.
    - [io_error c]: the error that call [c] ends with, if any.
    - [reached c]: when a copy or the writing of the report ends with an
      error, how much of the text had reached the destination by then:
      [None] when the destination was not opened, [Some n] when it was
      emptied and the first [n] characters were written ([Some 0] leaves an
      empty file, an [n] of the length of the text or more the text in
      full).
    - [stdout_encodes l]: whether the encoding of standard output has every
      character of the line [l] as the run prints it. *)
Record env := Env {
  safe_load : string → result document;
  dump : document → string * option exn;
  container_repr : heap → loc → string;
  now_backup : string;   (* line 17,  '%Y%m%d_%H%M%S' *)
  now_note : string;     (* line 99,  '%Y-%m-%d' *)
  now_report : string;   (* line 128, '%Y-%m-%d %H:%M:%S' *)
  io_error : io_call → option exn;
  reached : io_call → option nat;
  stdout_encodes : printed_line → bool
}.

(** A computation on the file system that returns or raises. *)
Definition io (A : Type) : Type := files → files * result A.

#[global] Instance io_ret : MRet io := λ A a fs, (fs, Ok a).
#[global] Instance io_bind : MBind io := λ A B f m fs,
  match m fs with
  | (fs', Ok a) => f a fs'
  | (fs', Raise e) => (fs', Raise e)
  end.

Definition io_raise {A} (e : exn) : io A := λ fs, (fs, Raise e).

Definition io_lift {A} (r : result A) : io A := λ fs, (fs, r).

(** [try: body except Exception as e: handler e]. *)
Definition try_except {A} (body : io A) (handler : exn → io A) : io A :=
  λ fs,
    match body fs with
    | (fs', Ok a) => (fs', Ok a)
    | (fs', Raise e) => handler e fs'
    end.

(** A call that writes nothing itself: it raises or goes on. *)
Definition os_call (E : env) (c : io_call) : io () :=
  match io_error E c with
  | Some e => io_raise e
  | None => mret ()
  end.

Definition read_file (path : string) : io string := λ fs,
  match fs !! path with
  | Some content => (fs, Ok content)
  | None => (fs, Raise FileNotFoundError)
  end.

Definition write_file (path content : string) : io () := λ fs,
  (<[path := content]> fs, Ok ()).

Definition path_exists (path : string) : io bool := λ fs,
  (fs, Ok (bool_decide (is_Some (fs !! path)))).

(** The first [n] characters of a text. *)
Fixpoint str_take (n : nat) (s : string) : string :=
  match n, s with
  | S n, String a s => String a (str_take n s)
  | _, _ => ""
  end.

(** Call [c] puts [content] into the file [path]: in full, or it raises
    and leaves there what had reached the file. *)
Definition write_or_fail (E : env) (c : io_call) (path content : string)
    : io () :=
  match io_error E c with
  | None => write_file path content
  | Some e =>
      match reached E c with
      | Some n => write_file path (str_take n content)
      | None => mret ()
      end;;
      io_raise e
  end.

(** [shutil.copy2(src, dst)], issued as call [c]: the source is opened
    first, then the destination. *)
Definition copy2 (E : env) (c : io_call) (src dst : string) : io () :=
  content ← read_file src;
  write_or_fail E c dst content.

(** [print] of the line [l]. *)
Definition py_print (E : env) (l : printed_line) : io () :=
  if stdout_encodes E l then mret () else io_raise UnicodeEncodeError.

(** ** The paths, lines 16, 17 and 123 *)

Definition swagger_file : string :=
  "D:/Project/app_sistem_akuntansi/backend/docs/swagger.yaml".

Definition backup_file (E : env) : string :=
  "D:/Project/app_sistem_akuntansi/backend/docs/swagger_backup_"
  +:+ now_backup E +:+ ".yaml".

Definition report_file : string :=
  "D:/Project/app_sistem_akuntansi/SWAGGER_CLEANUP_REPORT.md".

(** ** [generate_cleanup_report], lines 120-195 *)

Definition generate_cleanup_report (E : env) (unused_endpoints : list string)
    (removed_count : nat) (backup_file : string) : io () :=
  let content :=
    report_content (now_report E) unused_endpoints removed_count backup_file in
  write_or_fail E WriteReport report_file content;;
  py_print E Line195.

(** ** [remove_unused_endpoints], lines 13-118 *)

(** Lines 103-104: the file is truncated on opening, then [yaml.dump]
    streams into it. *)
Definition rewrite_source (E : env) (D : document) : io () :=
  os_call E RewriteSource;;
  let '(text, failure) := dump E D in
  write_file swagger_file text;;
  match failure with
  | Some e => io_raise e
  | None => mret ()
  end.

(** Lines 73-107: load [swagger.yaml], clean the document, write it back
    and print the two closing lines.  The value is [removed_count]. *)
Definition clean_swagger_file (E : env) : io nat :=
  os_call E OpenSource;;
  text ← read_file swagger_file;
  D ← io_lift (safe_load E text);
  let swagger_data := doc_root D in
  '(h, removed_count) ←
    io_lift (remove_endpoints unused_endpoints (doc_heap D) swagger_data);
  h ← io_lift (annotate (container_repr E) h swagger_data (now_note E));
  rewrite_source E (Document h swagger_data);;
  py_print E Line106;;
  py_print E Line107;;
  mret removed_count.

(** The body of the [try], lines 73-110: the above, then the report.  Its
    value is the [removed_count] the report was given. *)
Definition try_body (E : env) : io nat :=
  removed_count ← clean_swagger_file E;
  generate_cleanup_report E unused_endpoints removed_count (backup_file E);;
  mret removed_count.

(** The handler, lines 112-118: line 113 prints, lines 115-117 copy the
    backup over the source and print when the backup exists, line 118
    re-raises. *)
Definition restore_and_reraise (E : env) (e : exn) : io nat :=
  py_print E Line113;;
  present ← path_exists (backup_file E);
  (if present : bool
   then copy2 E RestoreCopy (backup_file E) swagger_file;;
        py_print E Line117
   else mret ());;
  io_raise e.

Definition remove_unused_endpoints (E : env) : io () :=
  copy2 E BackupCopy swagger_file (backup_file E);;
  try_except (try_body E) (restore_and_reraise E);;
  mret ().

(** ** Notions used to state the properties *)

(** The dictionary left when every key of [es] has been deleted. *)
Definition dict_remove_all (es : list string) (d : dict) : dict :=
  filter (λ kv, kv.1 ∉ KStr <$> es) d.

(** [swagger_data['paths']] is the dictionary [pd], stored at [p]. *)
Definition paths_at (h : heap) (swagger_data : value) (p : loc) (pd : dict)
  : Prop :=
  py_getitem h swagger_data "paths" = Ok (VRef p) ∧ h !! p = Some (ODict pd).

(** The description the annotator reads at line 98: the value of
    [info.description], the empty string when [info] or [description] is
    missing. *)
Definition original_description (h : heap) (swagger_data : value) : value :=
  match py_getitem h swagger_data "info" with
  | Ok info =>
      match py_get h info "description" (VStr "") with
      | Ok v => v
      | Raise _ => VStr ""
      end
  | Raise _ => VStr ""
  end.

(** The description the annotator stores. *)
Definition new_description (py_repr : heap → loc → string) (h : heap)
    (old : option value) (today : string) : value :=
  VStr (py_format py_repr h (default (VStr "") old) +:+ cleanup_note today).

(** The dictionary a value denotes, if it denotes one. *)
Definition dict_of (h : heap) (v : value) : option dict :=
  match v with
  | VRef l =>
      match h !! l with
      | Some (ODict d) => Some d
      | _ => None
      end
  | _ => None
  end.

(** A document of the expected shape: a top-level mapping whose [paths] and
    [info], when present, are mappings. *)
Definition well_shaped (h : heap) (swagger_data : value) : Prop :=
  ∃ rd, dict_of h swagger_data = Some rd
        ∧ (∀ v, dict_lookup (KStr "paths") rd = Some v → is_Some (dict_of h v))
        ∧ (∀ v, dict_lookup (KStr "info") rd = Some v → is_Some (dict_of h v)).

(** [reach h v l]: the object at [l] is part of what [v] denotes in [h]:
    [v] refers to it, directly or through the entries of containers. *)
Inductive reach (h : heap) : value → loc → Prop :=
  | reach_here l o :
      h !! l = Some o → reach h (VRef l) l
  | reach_dict l d k v l' :
      h !! l = Some (ODict d) → (k, v) ∈ d → reach h v l' →
      reach h (VRef l) l'
  | reach_list l xs v l' :
      h !! l = Some (OList xs) → v ∈ xs → reach h v l' →
      reach h (VRef l) l'.

(** [v] denotes in [h'] what it denoted in [h]: every object it reaches is
    as it was. *)
Definition same_content (h h' : heap) (v : value) : Prop :=
  ∀ l, reach h v l → h' !! l = h !! l.

(** Key [k] of dictionary [d] keeps its value in [d']. *)
Definition kept (h h' : heap) (d d' : dict) (k : key) : Prop :=
  ∀ v, dict_lookup k d = Some v →
       dict_lookup k d' = Some v ∧ same_content h h' v.

(** The frame of lines 79-99 between a document [h] and what became of it,
    [h']: top-level keys other than [paths] and [info], keys of [paths] that
    are not on the removal list, and keys of [info] other than
    [description] keep their values. *)
Definition frame_holds (h : heap) (swagger_data : value) (h' : heap) : Prop :=
  ∀ rd, dict_of h swagger_data = Some rd →
  ∃ rd', dict_of h' swagger_data = Some rd'
    ∧ (∀ k, k ≠ KStr "paths" → k ≠ KStr "info" → kept h h' rd rd' k)
    ∧ (∀ pv pd,
         dict_lookup (KStr "paths") rd = Some pv → dict_of h pv = Some pd →
         ∃ pd', dict_of h' pv = Some pd'
                ∧ ∀ k, k ∉ targets → kept h h' pd pd' k)
    ∧ (∀ iv idd,
         dict_lookup (KStr "info") rd = Some iv → dict_of h iv = Some idd →
         ∃ idd', dict_of h' iv = Some idd'
                 ∧ ∀ k, k ≠ KStr "description" → kept h h' idd idd' k).

Definition ref_of (v : option value) : list loc :=
  match v with
  | Some (VRef l) => [l]
  | _ => []
  end.

(** The objects lines 79-99 may write to: the top-level mapping, the value
    of [paths] and the value of [info]. *)
Definition written (h : heap) (swagger_data : value) : list loc :=
  match swagger_data, dict_of h swagger_data with
  | VRef r, Some rd =>
      r :: ref_of (dict_lookup (KStr "paths") rd)
        ++ ref_of (dict_lookup (KStr "info") rd)
  | _, _ => []
  end.

(** [v] shares no object with the ones the script writes to. *)
Definition apart (h : heap) (swagger_data : value) (v : value) : Prop :=
  ∀ l, l ∈ written h swagger_data → ¬ reach h v l.

(** No alias leads to the top-level mapping, [paths] or [info]: the three
    are distinct objects, and none of them is part of a value that the
    frame speaks of. *)
Definition unaliased (h : heap) (swagger_data : value) : Prop :=
  NoDup (written h swagger_data)
  ∧ ∀ rd, dict_of h swagger_data = Some rd →
      (∀ k v, k ≠ KStr "paths" → k ≠ KStr "info" →
              dict_lookup k rd = Some v → apart h swagger_data v)
      ∧ (∀ pv pd k v,
           dict_lookup (KStr "paths") rd = Some pv → dict_of h pv = Some pd →
           k ∉ targets → dict_lookup k pd = Some v → apart h swagger_data v)
      ∧ (∀ iv idd k v,
           dict_lookup (KStr "info") rd = Some iv → dict_of h iv = Some idd →
           k ≠ KStr "description" → dict_lookup k idd = Some v →
           apart h swagger_data v).

(** A computation that changes no file outside [W]. *)
Definition only_writes {A} (W : list string) (m : io A) : Prop :=
  ∀ fs fs' r, m fs = (fs', r) → ∀ path, path ∉ W → fs' !! path = fs !! path.

(** ** Documents used as examples *)

(** [paths: {/a: ~, /journal-entries/summary: ~, /api/payments/analytics: ~}]
    and [info: {title: API, description: Accounting}]. *)
Definition sample_heap : heap :=
  {[ 1%positive := ODict [(KStr "paths", VRef 2); (KStr "info", VRef 3)];
     2%positive := ODict [(KStr "/a", VNone);
                          (KStr "/journal-entries/summary", VNone);
                          (KStr "/api/payments/analytics", VNone)];
     3%positive := ODict [(KStr "title", VStr "API");
                          (KStr "description", VStr "Accounting")] ]}.

Definition sample_paths : dict :=
  [(KStr "/a", VNone); (KStr "/journal-entries/summary", VNone);
   (KStr "/api/payments/analytics", VNone)].

(** A document with neither [paths] nor [info]: [openapi: 3.0.0]. *)
Definition bare_heap : heap :=
  {[ 1%positive := ODict [(KStr "openapi", VStr "3.0.0")] ]}.

(** [paths: &p {/a: ~, /journal-entries/summary: ~}] and [info: *p]: one
    dictionary under both keys. *)
Definition info_alias_heap : heap :=
  {[ 1%positive := ODict [(KStr "paths", VRef 2); (KStr "info", VRef 2)];
     2%positive := ODict [(KStr "/a", VNone);
                          (KStr "/journal-entries/summary", VNone)] ]}.

(** [paths: {/a: ~}] and [info: ~]: the [info] key is there, with no
    mapping under it. *)
Definition null_info_heap : heap :=
  {[ 1%positive := ODict [(KStr "paths", VRef 2); (KStr "info", VNone)];
     2%positive := ODict [(KStr "/a", VNone)] ]}.

(** [paths: ~]: the [paths] key is there, with no mapping under it. *)
Definition null_paths_heap : heap :=
  {[ 1%positive := ODict [(KStr "paths", VNone)] ]}.

(** A [repr] for the examples; none of them formats a container. *)
Definition no_repr : heap → loc → string := λ _ _, "{...}".

(** [paths: &p {/a: ~, /journal-entries/summary: ~}], [info: {title: API}]
    and [x-legacy-paths: *p]: a third key shares the [paths] dictionary. *)
Definition legacy_alias_heap : heap :=
  {[ 1%positive := ODict [(KStr "paths", VRef 2); (KStr "info", VRef 3);
                          (KStr "x-legacy-paths", VRef 2)];
     2%positive := ODict [(KStr "/a", VNone);
                          (KStr "/journal-entries/summary", VNone)];
     3%positive := ODict [(KStr "title", VStr "API")] ]}.

(** [paths: {/a: {get: ~}, /journal-entries/summary: ~}],
    [info: {title: API}] and [servers: [{url: /api}]]: no alias. *)
Definition tree_heap : heap :=
  {[ 1%positive := ODict [(KStr "paths", VRef 2); (KStr "info", VRef 3);
                          (KStr "servers", VRef 5)];
     2%positive := ODict [(KStr "/a", VRef 4);
                          (KStr "/journal-entries/summary", VNone)];
     3%positive := ODict [(KStr "title", VStr "API")];
     4%positive := ODict [(KStr "get", VNone)];
     5%positive := OList [VRef 6];
     6%positive := ODict [(KStr "url", VStr "/api")] ]}.

(** Inversion of [reach] and of membership on a concrete store. *)
Ltac reach_inv :=
  repeat match goal with
  | H : _ ∈ [] |- _ => by apply elem_of_nil in H
  | H : _ ∈ _ :: _ |- _ => apply elem_of_cons in H as [H|H]; simplify_eq
  | H : tree_heap !! _ = Some _ |- _ => vm_compute in H; simplify_eq
  | H : reach _ VNone _ |- _ => by inversion H
  | H : reach _ (VStr _) _ |- _ => by inversion H
  | H : reach _ (VRef _) _ |- _ => inversion_clear H; simplify_eq
  end.

(** ** Environments and files used as examples *)

Definition sample_load : string → result document :=
  λ _, Ok (Document sample_heap (VRef 1)).

Definition sample_dump : document → string * option exn :=
  λ _, ("openapi: 3.0.0 ...", None).

Definition sample_files : files := {[ swagger_file := "swagger: original" ]}.

Definition no_io_error : io_call → option exn := λ _, None.

(** A failing call fails before its destination is opened. *)
Definition nothing_reached : io_call → option nat := λ _, None.

(** Standard output in UTF-8 has every character. *)
Definition utf8_stdout : printed_line → bool := λ _, true.



(** A run without any error. *)
Definition quiet_env : env :=
  Env sample_load sample_dump no_repr
      "20250115_093000" "2025-01-15" "2025-01-15 09:30:00" no_io_error
      nothing_reached utf8_stdout.

(** The same clock and the same counts on another document:
    [paths: {/b: ~, /api/payments/{id}/pdf: ~, /api/monitoring/sync-status: ~}]. *)
Definition other_heap : heap :=
  {[ 1%positive := ODict [(KStr "paths", VRef 2)];
     2%positive := ODict [(KStr "/b", VNone);
                          (KStr "/api/payments/{id}/pdf", VNone);
                          (KStr "/api/monitoring/sync-status", VNone)] ]}.

Definition other_env : env :=
  Env (λ _, Ok (Document other_heap (VRef 1)))
      (λ _, ("openapi: 3.1.0 ...", None)) no_repr
      "20250115_093000" "2025-01-15" "2025-01-15 09:30:00" no_io_error
      nothing_reached utf8_stdout.


(** As above, and the restoring copy raises [OSError] as well. *)
Definition disk_full_env : env :=
  Env sample_load (λ _, ("openapi: 3.", Some (OSError 28))) no_repr
      "20250115_093000" "2025-01-15" "2025-01-15 09:30:00"
      (λ c, match c with RestoreCopy => Some (OSError 5) | _ => None end)
      nothing_reached utf8_stdout.


(** The run fails with [e] before the source is opened for writing, on the
    text [text]: the source cannot be opened for reading, or the text does
    not parse, or lines 79-99 raise on the parsed document. *)
Definition fails_before_rewrite (E : env) (text : string) (e : exn) : Prop :=
  io_error E OpenSource = Some e
  ∨ (io_error E OpenSource = None
     ∧ (safe_load E text = Raise e
        ∨ ∃ D, safe_load E text = Ok D
               ∧ clean_document (container_repr E) (doc_heap D) (doc_root D)
                   (now_note E) = Raise e)).

(** [o'] is [o] up to what the annotator may do to an object: a list is
    left alone, a dictionary keeps every key other than [info] and
    [description] with its value and gains no other key. *)
Definition annotated_object (o o' : obj) : Prop :=
  match o with
  | OList xs => o' = OList xs
  | ODict d =>
      ∃ d', o' = ODict d'
            ∧ ∀ k, k ≠ KStr "info" → k ≠ KStr "description" →
                   dict_lookup k d' = dict_lookup k d
  end.

(** ** Deciding outcomes *)

#[global] Instance exn_eq_dec : EqDecision exn.
Proof. solve_decision. Defined.

#[global] Instance result_eq_dec {A} `{EqDecision A} : EqDecision (result A).
Proof. solve_decision. Defined.

(** ** Further examples *)

(** [paths: {/a: ~}] and [info: {description: ~}]: a [description] key with
    no text under it. *)
Definition null_description_heap : heap :=
  {[ 1%positive := ODict [(KStr "paths", VRef 2); (KStr "info", VRef 3)];
     2%positive := ODict [(KStr "/a", VNone)];
     3%positive := ODict [(KStr "description", VNone)] ]}.

(** [paths: [/a, /b]]: the paths given as a sequence. *)
Definition list_paths_heap : heap :=
  {[ 1%positive := ODict [(KStr "paths", VRef 2)];
     2%positive := OList [VStr "/a"; VStr "/b"] ]}.

(** [paths: [/a, /journal-entries/summary]]: a sequence with an entry of
    the removal list. *)
Definition list_paths_hit_heap : heap :=
  {[ 1%positive := ODict [(KStr "paths", VRef 2)];
     2%positive := OList [VStr "/a"; VStr "/journal-entries/summary"] ]}.

(** The text is not YAML. *)
Definition parse_error_env : env :=
  Env (λ _, Raise YAMLError) sample_dump no_repr
      "20250115_093000" "2025-01-15" "2025-01-15 09:30:00" no_io_error
      nothing_reached utf8_stdout.



(** The text is not YAML, and the restoring copy raises [OSError] (file
    too large) after eight characters. *)
Definition parse_error_cut_restore_env : env :=
  Env (λ _, Raise YAMLError) sample_dump no_repr
      "20250115_093000" "2025-01-15" "2025-01-15 09:30:00"
      (λ c, match c with RestoreCopy => Some (OSError 27) | _ => None end)
      (λ c, match c with RestoreCopy => Some 8 | _ => None end)
      utf8_stdout.


(** The backup copy raises [OSError] (file too large) after eight
    characters. *)
Definition backup_cut_env : env :=
  Env sample_load sample_dump no_repr
      "20250115_093000" "2025-01-15" "2025-01-15 09:30:00"
      (λ c, match c with BackupCopy => Some (OSError 27) | _ => None end)
      (λ c, match c with BackupCopy => Some 8 | _ => None end)
      utf8_stdout.


(** * Properties *)

(** ** Dictionaries *)

Lemma dict_keys_delete k (d : dict) :
  dict_keys (dict_delete k d) = filter (λ k', k' ≠ k) (dict_keys d).
Proof.
  unfold dict_keys, dict_delete.
  induction d as [|[k' v] d IH]; [done|].
  rewrite fmap_cons. simpl fst.
  destruct (decide (k' = k)) as [->|Hne].
  - rewrite !filter_cons_False by (simpl; tauto). done.
  - rewrite !filter_cons_True by done. rewrite fmap_cons, IH. done.
Qed.

Lemma elem_of_dict_keys_delete k k' (d : dict) :
  k' ∈ dict_keys (dict_delete k d) ↔ k' ≠ k ∧ k' ∈ dict_keys d.
Proof. rewrite dict_keys_delete, list_elem_of_filter. done. Qed.

Lemma dict_lookup_delete_ne k k' (d : dict) :
  k ≠ k' → dict_lookup k' (dict_delete k d) = dict_lookup k' d.
Proof.
  intros Hne. unfold dict_delete.
  induction d as [|[k0 v] d IH]; [done|].
  destruct (decide (k0 = k)) as [->|Hk0].
  - rewrite filter_cons_False by (simpl; tauto).
    simpl. rewrite decide_False by done. done.
  - rewrite filter_cons_True by done. simpl. by rewrite IH.
Qed.

Lemma dict_lookup_elem_of k v (d : dict) :
  dict_lookup k d = Some v → (k, v) ∈ d.
Proof.
  induction d as [|[k0 v0] d IH]; simpl; [done|].
  case_decide as Hk.
  - intros [= ->]. subst. apply list_elem_of_here.
  - intros H. apply list_elem_of_further. auto.
Qed.

Lemma dict_lookup_is_Some k (d : dict) :
  is_Some (dict_lookup k d) ↔ k ∈ dict_keys d.
Proof.
  unfold dict_keys. induction d as [|[k0 v0] d IH]; simpl.
  - split; [by intros [? ?]|by intros ?%elem_of_nil].
  - rewrite elem_of_cons. case_decide as Hk; simpl.
    + split; [by left|by eauto].
    + rewrite IH. split; [by right|]. by intros [?|?]; [congruence|].
Qed.

Lemma dict_lookup_None k (d : dict) :
  dict_lookup k d = None ↔ k ∉ dict_keys d.
Proof. rewrite <- dict_lookup_is_Some, eq_None_not_Some. done. Qed.

Lemma dict_lookup_insert_eq k v (d : dict) :
  dict_lookup k (dict_insert k v d) = Some v.
Proof.
  induction d as [|[k0 v0] d IH]; simpl.
  - by rewrite decide_True.
  - case_decide; simpl; [by rewrite decide_True|by rewrite decide_False].
Qed.

Lemma dict_lookup_insert_ne k k' v (d : dict) :
  k ≠ k' → dict_lookup k' (dict_insert k v d) = dict_lookup k' d.
Proof.
  intros Hne. induction d as [|[k0 v0] d IH]; simpl.
  - by rewrite decide_False.
  - case_decide as Hk; simpl.
    + subst. by rewrite !decide_False.
    + case_decide; [done|apply IH].
Qed.

Lemma dict_remove_all_nil (d : dict) : dict_remove_all [] d = d.
Proof.
  unfold dict_remove_all. induction d as [|kv d IH]; [done|].
  rewrite filter_cons_True; [by rewrite IH|]. simpl. apply not_elem_of_nil.
Qed.

Lemma dict_remove_all_cons e es (d : dict) :
  dict_remove_all (e :: es) d = dict_remove_all es (dict_delete (KStr e) d).
Proof.
  unfold dict_remove_all, dict_delete. rewrite list_filter_filter.
  apply list_filter_iff. intros [k v].
  rewrite fmap_cons, not_elem_of_cons. simpl. tauto.
Qed.

Lemma dict_delete_absent k (d : dict) :
  k ∉ dict_keys d → dict_delete k d = d.
Proof.
  unfold dict_delete, dict_keys.
  induction d as [|[k0 v] d IH]; [done|].
  rewrite fmap_cons, not_elem_of_cons. simpl. intros [Hk Hd].
  rewrite filter_cons_True by (simpl; congruence). by rewrite IH.
Qed.

Lemma dict_remove_all_absent e es (d : dict) :
  KStr e ∉ dict_keys d → dict_remove_all (e :: es) d = dict_remove_all es d.
Proof.
  intros Hnin. by rewrite dict_remove_all_cons, dict_delete_absent.
Qed.

Lemma dict_remove_all_none es (d : dict) :
  (∀ e, e ∈ es → KStr e ∉ dict_keys d) → dict_remove_all es d = d.
Proof.
  induction es as [|e es IH]; intros Hes.
  - apply dict_remove_all_nil.
  - rewrite dict_remove_all_absent by (apply Hes, list_elem_of_here).
    apply IH. intros e' He'. by apply Hes, list_elem_of_further.
Qed.

Lemma dict_keys_remove_all es (d : dict) :
  dict_keys (dict_remove_all es d)
  = filter (λ k, k ∉ KStr <$> es) (dict_keys d).
Proof.
  unfold dict_keys, dict_remove_all.
  induction d as [|[k v] d IH]; [done|].
  rewrite fmap_cons. simpl fst.
  destruct (decide (k ∉ KStr <$> es)).
  - rewrite !filter_cons_True by done. by rewrite fmap_cons, IH.
  - rewrite !filter_cons_False by done. done.
Qed.

Lemma dict_remove_all_idemp es (d : dict) :
  dict_remove_all es (dict_remove_all es d) = dict_remove_all es d.
Proof.
  unfold dict_remove_all. rewrite list_filter_filter.
  apply list_filter_iff. tauto.
Qed.

Lemma dict_lookup_remove_all k es (d : dict) :
  k ∉ KStr <$> es → dict_lookup k (dict_remove_all es d) = dict_lookup k d.
Proof.
  intros Hk. unfold dict_remove_all.
  induction d as [|[k0 v] d IH]; [done|].
  destruct (decide (k0 ∉ KStr <$> es)) as [Hin|Hin].
  - rewrite filter_cons_True by done. simpl. by rewrite IH.
  - rewrite filter_cons_False by done. simpl.
    rewrite decide_False; [done|]. by intros ->.
Qed.

Lemma no_hits_after_removal es (pd : dict) : ∀ l,
  l ⊆ es →
  filter (λ e, KStr e ∈ dict_keys (dict_remove_all es pd)) l = [].
Proof.
  induction l as [|e l IH]; intros Hsub; [done|].
  rewrite filter_cons_False; [apply IH; set_solver|].
  rewrite dict_keys_remove_all, list_elem_of_filter.
  intros [Hk _]. apply Hk, list_elem_of_fmap. exists e. set_solver.
Qed.

(** ** The removal loop *)

Lemma remove_loop_nil root h n : remove_loop root [] h n = Ok (h, n).
Proof. reflexivity. Qed.

Lemma remove_loop_cons root e es h n :
  remove_loop root (e :: es) h n
  = (paths ← py_getitem h root "paths";
     found ← py_contains h e paths;
     if found : bool then
       paths ← py_getitem h root "paths";
       h' ← py_delitem h paths e;
       remove_loop root es h' (S n)
     else remove_loop root es h n).
Proof. reflexivity. Qed.

Lemma paths_at_root h root p pd :
  paths_at h root p pd →
  ∃ r rd, root = VRef r ∧ h !! r = Some (ODict rd)
          ∧ dict_lookup (KStr "paths") rd = Some (VRef p).
Proof.
  intros [Hget _]. destruct root as [| | | | |r]; try done.
  simpl in Hget. destruct (h !! r) as [[rd|]|] eqn:Hr; try done.
  destruct (dict_lookup (KStr "paths") rd) as [v|] eqn:Hp; [|done].
  exists r, rd. by simplify_eq.
Qed.

Lemma paths_at_update h root p pd pd' :
  paths_at h root p pd →
  dict_lookup (KStr "paths") pd' = dict_lookup (KStr "paths") pd →
  paths_at (<[p := ODict pd']> h) root p pd'.
Proof.
  intros Hat Hsame.
  destruct (paths_at_root _ _ _ _ Hat) as (r & rd & -> & Hr & Hp).
  destruct Hat as [_ Hpd]. split; [|by rewrite lookup_insert_eq].
  simpl. destruct (decide (p = r)) as [->|Hne].
  - rewrite lookup_insert_eq. simplify_eq. by rewrite Hsame, Hp.
  - rewrite lookup_insert_ne by done. by rewrite Hr, Hp.
Qed.

Lemma length_filter_keys_delete e es (d : dict) :
  e ∉ es →
  length (filter (λ e', KStr e' ∈ dict_keys (dict_delete (KStr e) d)) es)
  = length (filter (λ e', KStr e' ∈ dict_keys d) es).
Proof.
  induction es as [|e0 es IH]; [done|].
  rewrite not_elem_of_cons. intros [Hne Hes].
  rewrite !filter_cons.
  destruct (decide (KStr e0 ∈ dict_keys d)) as [Hin|Hnin].
  - rewrite decide_True; [simpl; by rewrite IH|].
    apply elem_of_dict_keys_delete. split; [congruence|done].
  - rewrite decide_False; [by apply IH|].
    rewrite elem_of_dict_keys_delete. tauto.
Qed.

(** On a [paths] dictionary the loop deletes exactly the listed keys that
    are present and counts them. *)
Lemma remove_loop_dict root p es : ∀ h n pd,
  paths_at h root p pd →
  "paths" ∉ es →
  NoDup es →
  remove_loop root es h n
  = Ok (<[p := ODict (dict_remove_all es pd)]> h,
        n + length (filter (λ e, KStr e ∈ dict_keys pd) es)).
Proof.
  induction es as [|e es IH]; intros h n pd Hat Hpaths Hnodup.
  - rewrite remove_loop_nil, dict_remove_all_nil, insert_id by apply Hat.
    by rewrite Nat.add_0_r.
  - apply not_elem_of_cons in Hpaths as [Hne Hpaths].
    apply NoDup_cons in Hnodup as [Hfresh Hnodup].
    pose proof Hat as [Hget Hpd].
    rewrite remove_loop_cons, Hget. simpl. rewrite Hpd.
    rewrite filter_cons.
    destruct (decide (KStr e ∈ dict_keys pd)) as [Hin|Hnin].
    + rewrite !bool_decide_eq_true_2 by done. simpl.
      rewrite (IH _ _ (dict_delete (KStr e) pd)); try done.
      * rewrite insert_insert_eq, dict_remove_all_cons.
        rewrite length_filter_keys_delete by done.
        f_equal. f_equal. lia.
      * apply (paths_at_update _ _ _ pd); [done|].
        apply dict_lookup_delete_ne. congruence.
    + rewrite bool_decide_eq_false_2 by done.
      rewrite (IH _ _ pd) by done.
      by rewrite dict_remove_all_absent.
Qed.

(** When [swagger_data['paths']] is not a dictionary, the loop cannot delete:
    it either raises or leaves everything as it was. *)
Lemma remove_loop_not_dict root es : ∀ h n h' n' pv,
  py_getitem h root "paths" = Ok pv →
  (∀ p pd, pv = VRef p → h !! p ≠ Some (ODict pd)) →
  remove_loop root es h n = Ok (h', n') →
  h' = h ∧ n' = n.
Proof.
  induction es as [|e es IH]; intros h n h' n' pv Hget Hnd.
  - rewrite remove_loop_nil. by intros [= <- <-].
  - rewrite remove_loop_cons, Hget. simpl.
    destruct (py_contains h e pv) as [[]|]; simpl; [| |done].
    + assert (py_delitem h pv e = Raise TypeError) as ->; [|done].
      destruct pv as [| | | | |p]; try done. simpl.
      destruct (h !! p) as [[pd|]|] eqn:Hp; try done.
      by destruct (Hnd p pd).
    + by apply IH with pv.
Qed.

(** ** The removal list *)

Lemma unused_endpoints_NoDup : NoDup unused_endpoints.
Proof. apply (bool_decide_unpack _). by vm_compute. Qed.

Lemma unused_endpoints_not_reserved k :
  k ∈ ["paths"; "info"; "description"] → k ∉ unused_endpoints.
Proof.
  intros Hk Hin.
  assert (Forall (λ e, e ∉ ["paths"; "info"; "description"]) unused_endpoints)
    as Hall by (apply (bool_decide_unpack _); by vm_compute).
  rewrite Forall_forall in Hall. by apply (Hall k).
Qed.

Lemma paths_not_unused : "paths" ∉ unused_endpoints.
Proof. apply unused_endpoints_not_reserved. set_solver. Qed.

Lemma elem_of_targets k : k ∈ targets ↔ k ∈ KStr <$> unused_endpoints.
Proof. unfold targets. apply elem_of_list_to_set. Qed.

(** ** The remover on a [paths] dictionary *)

Lemma paths_at_contains h root p pd :
  paths_at h root p pd → py_contains h "paths" root = Ok true.
Proof.
  intros Hat. destruct (paths_at_root _ _ _ _ Hat) as (r & rd & -> & Hr & Hp).
  simpl. rewrite Hr. f_equal. apply bool_decide_eq_true_2.
  apply dict_lookup_is_Some. by rewrite Hp.
Qed.

Lemma paths_at_remove_all_of es h root p pd :
  "paths" ∉ es →
  paths_at h root p pd →
  paths_at (<[p := ODict (dict_remove_all es pd)]> h) root p
           (dict_remove_all es pd).
Proof.
  intros Hes Hat. apply (paths_at_update _ _ _ pd); [done|].
  apply dict_lookup_remove_all.
  intros (e & [= <-] & He)%list_elem_of_fmap. done.
Qed.

Lemma remove_endpoints_dict es h root p pd :
  paths_at h root p pd →
  "paths" ∉ es →
  NoDup es →
  remove_endpoints es h root
  = Ok (<[p := ODict (dict_remove_all es pd)]> h,
        length (filter (λ e, KStr e ∈ dict_keys pd) es)).
Proof.
  intros Hat Hes Hnodup. unfold remove_endpoints.
  rewrite (paths_at_contains _ _ _ _ Hat). simpl.
  pose proof Hat as [-> Hpd]. simpl. rewrite Hpd. simpl.
  rewrite (remove_loop_dict _ p _ _ _ pd Hat Hes Hnodup). simpl.
  destruct (paths_at_remove_all_of es _ _ _ _ Hes Hat) as [-> Hpd']. simpl.
  by rewrite Hpd'.
Qed.

Lemma remove_endpoints_no_paths es h r rd :
  h !! r = Some (ODict rd) →
  KStr "paths" ∉ dict_keys rd →
  remove_endpoints es h (VRef r) = Ok (h, 0).
Proof.
  intros Hr Hno. unfold remove_endpoints. simpl. rewrite Hr.
  by rewrite bool_decide_eq_false_2.
Qed.

Lemma remove_loop_absent root p pd e es h n :
  paths_at h root p pd →
  KStr e ∉ dict_keys pd →
  remove_loop root (e :: es) h n = remove_loop root es h n.
Proof.
  intros [Hget Hpd] Hno. rewrite remove_loop_cons, Hget. simpl.
  rewrite Hpd. by rewrite bool_decide_eq_false_2.
Qed.

(** What a successful run of the remover did. *)
Lemma remove_endpoints_Ok_inv es h root h1 n :
  "paths" ∉ es →
  NoDup es →
  remove_endpoints es h root = Ok (h1, n) →
  (h1 = h ∧ n = 0)
  ∨ ∃ p pd, paths_at h root p pd
            ∧ h1 = <[p := ODict (dict_remove_all es pd)]> h.
Proof.
  intros Hes Hnodup Hfirst.
  pose proof Hfirst as Hrun. unfold remove_endpoints in Hrun.
  destruct (py_contains h "paths" root) as [[]|] eqn:Hin;
    simpl in Hrun; [| |done].
  2:{ injection Hrun as <- <-. by left. }
  destruct (py_getitem h root "paths") as [pv|] eqn:Hget;
    simpl in Hrun; [|done].
  assert ((∃ p pd, pv = VRef p ∧ h !! p = Some (ODict pd))
          ∨ (∀ p pd, pv = VRef p → h !! p ≠ Some (ODict pd)))
    as [(p & pd & -> & Hpd)|Hnd].
  { destruct pv as [| | | | |p]; try (by right).
    destruct (h !! p) as [[pd|xs]|] eqn:Hp; [left; by eauto|right..];
      intros ?? [= <-]; congruence. }
  - right. exists p, pd. assert (paths_at h root p pd) as Hat by done.
    rewrite (remove_endpoints_dict _ _ _ _ _ Hat Hes Hnodup) in Hfirst.
    by injection Hfirst as <- <-.
  - left. destruct (py_len h pv) as [len|]; simpl in Hrun; [|done].
    destruct (remove_loop root es h 0) as [[h' n']|] eqn:Hloop;
      simpl in Hrun; [|done].
    destruct (remove_loop_not_dict _ _ _ _ _ _ pv Hget Hnd Hloop) as [-> ->].
    destruct (py_getitem h root "paths") as [pv'|]; simpl in Hrun; [|done].
    destruct (py_len h pv'); simpl in Hrun; [|done].
    by injection Hrun as <- <-.
Qed.

(** A second run of the remover finds nothing to delete. *)
Lemma remove_endpoints_twice es h root h1 n :
  "paths" ∉ es →
  NoDup es →
  remove_endpoints es h root = Ok (h1, n) →
  remove_endpoints es h1 root = Ok (h1, 0).
Proof.
  intros Hes Hnodup Hfirst.
  destruct (remove_endpoints_Ok_inv _ _ _ _ _ Hes Hnodup Hfirst)
    as [[-> ->]|(p & pd & Hat & ->)]; [done|].
  rewrite (remove_endpoints_dict _ _ _ _ _
             (paths_at_remove_all_of _ _ _ _ _ Hes Hat) Hes Hnodup).
  rewrite insert_insert_eq, dict_remove_all_idemp.
  by rewrite no_hits_after_removal.
Qed.

Lemma dict_key_set_remove_all (pd : dict) :
  dict_key_set (dict_remove_all unused_endpoints pd)
  = dict_key_set pd ∖ targets.
Proof.
  apply set_eq. intros k. unfold dict_key_set.
  rewrite elem_of_difference, !elem_of_list_to_set, elem_of_targets.
  rewrite dict_keys_remove_all, list_elem_of_filter. tauto.
Qed.

Lemma removed_count_size (pd : dict) :
  length (filter (λ e, KStr e ∈ dict_keys pd) unused_endpoints)
  = size (dict_key_set pd ∩ targets).
Proof.
  set (hits := filter (λ e, KStr e ∈ dict_keys pd) unused_endpoints).
  assert (dict_key_set pd ∩ targets = list_to_set (KStr <$> hits)) as ->.
  { apply set_eq. intros k. unfold dict_key_set, hits.
    rewrite elem_of_intersection, !elem_of_list_to_set, elem_of_targets.
    rewrite !list_elem_of_fmap. setoid_rewrite list_elem_of_filter.
    split.
    - intros [Hk (e & -> & He)]. eauto.
    - intros (e & -> & Hk & He). eauto. }
  rewrite size_list_to_set, length_fmap; [done|].
  apply NoDup_fmap_2; [by intros ?? [=]|].
  apply NoDup_filter, unused_endpoints_NoDup.
Qed.

(** ** The annotator *)

Section AnnotatorFacts.

Variable py_repr : heap → loc → string.

(** [info] is a dictionary: its [description] is replaced. *)
Lemma annotate_info_present h r rd i idd today :
  h !! r = Some (ODict rd) →
  dict_lookup (KStr "info") rd = Some (VRef i) →
  h !! i = Some (ODict idd) →
  annotate py_repr h (VRef r) today
  = Ok (<[i := ODict (dict_insert (KStr "description")
                        (new_description py_repr h
                           (dict_lookup (KStr "description") idd) today)
                        idd)]> h).
Proof.
  intros Hr Hinfo Hi. unfold annotate. simpl. rewrite Hr. simpl.
  rewrite bool_decide_eq_true_2
    by (apply dict_lookup_is_Some; by rewrite Hinfo).
  simpl. rewrite Hr, Hinfo. simpl. rewrite Hi.
  unfold new_description.
  by destruct (dict_lookup (KStr "description") idd).
Qed.

(** No [info] key: a new dictionary is bound to it first. *)
Lemma annotate_info_absent h r rd today :
  h !! r = Some (ODict rd) →
  dict_lookup (KStr "info") rd = None →
  annotate py_repr h (VRef r) today
  = Ok (<[fresh (dom h) :=
            ODict [(KStr "description", VStr (cleanup_note today))]]>
          (<[r := ODict (dict_insert (KStr "info") (VRef (fresh (dom h))) rd)]>
             (<[fresh (dom h) := ODict []]> h))).
Proof.
  intros Hr Hinfo.
  assert (fresh (dom h) ≠ r) as Hfresh.
  { intros Heq. apply (is_fresh (dom h)). rewrite Heq.
    apply elem_of_dom. by rewrite Hr. }
  unfold annotate. simpl. rewrite Hr. simpl.
  rewrite bool_decide_eq_false_2 by (by apply dict_lookup_None).
  simpl. rewrite lookup_insert_ne, Hr by done. simpl.
  rewrite lookup_insert_eq, dict_lookup_insert_eq. simpl.
  rewrite lookup_insert_ne, lookup_insert_eq by done. done.
Qed.

(** The annotator returns only on a top-level dictionary whose [info] is
    missing or a dictionary. *)
Lemma annotate_Ok_inv h root today h2 :
  annotate py_repr h root today = Ok h2 →
  ∃ r rd, root = VRef r ∧ h !! r = Some (ODict rd) ∧
    (dict_lookup (KStr "info") rd = None
     ∨ ∃ i idd, dict_lookup (KStr "info") rd = Some (VRef i)
                ∧ h !! i = Some (ODict idd)).
Proof.
  unfold annotate. intros Hrun.
  destruct root as [| | | |s|r]; try done.
  - simpl in Hrun. by destruct (str_contains "info" s).
  - simpl in Hrun. destruct (h !! r) as [[rd|xs]|] eqn:Hr; [| |done].
    + exists r, rd. split_and!; [done..|].
      destruct (dict_lookup (KStr "info") rd) as [v|] eqn:Hinfo; [|by left].
      right. simpl in Hrun.
      rewrite bool_decide_eq_true_2 in Hrun
        by (apply dict_lookup_is_Some; by rewrite Hinfo).
      simpl in Hrun. rewrite Hr, Hinfo in Hrun. simpl in Hrun.
      destruct v as [| | | | |i]; try done.
      destruct (h !! i) as [[idd|]|] eqn:Hi; [by eauto|..];
        unfold py_get in Hrun; by rewrite Hi in Hrun.
    + simpl in Hrun.
      destruct (bool_decide (VStr "info" ∈ xs)); simpl in Hrun.
      * by rewrite Hr in Hrun.
      * rewrite lookup_insert_ne in Hrun; [by rewrite Hr in Hrun|].
        intros Heq. apply (is_fresh (dom h)). rewrite Heq.
        apply elem_of_dom. by rewrite Hr.
Qed.

End AnnotatorFacts.

(** ** Claims about the remover *)

(** C3.  For a document whose [paths] is a mapping, the counter at the end
    of the removal loop is the number of keys that [paths] shares with the
    removal list. *)
Theorem removed_count_is_intersection_size h swagger_data p pd :
  paths_at h swagger_data p pd →
  ∃ h', remove_endpoints unused_endpoints h swagger_data
        = Ok (h', size (dict_key_set pd ∩ targets)).
Proof.
  intros Hat.
  rewrite (remove_endpoints_dict _ _ _ _ _ Hat paths_not_unused
             unused_endpoints_NoDup), removed_count_size.
  eauto.
Qed.

Lemma removed_count_is_intersection_size_witness :
  paths_at sample_heap (VRef 1) 2 sample_paths
  ∧ ∃ h', remove_endpoints unused_endpoints sample_heap (VRef 1)
          = Ok (h', size (dict_key_set sample_paths ∩ targets)).
Proof.
  assert (paths_at sample_heap (VRef 1) 2 sample_paths) as Hat
    by (split; reflexivity).
  split; [exact Hat|].
  exact (removed_count_is_intersection_size _ _ _ _ Hat).
Defined.

(** C7.  On a top-level mapping without a [paths] key the remover does
    nothing and returns a count of zero; on one with a [paths] mapping, an
    entry of the list that is not a key of [paths] leaves the store and the
    counter as they are, and the loop goes on; when no entry is a key, the
    remover returns the store unchanged with a count of zero. *)
Theorem missing_paths_or_entry_is_no_error h r rd :
  h !! r = Some (ODict rd) →
  (KStr "paths" ∉ dict_keys rd →
   remove_endpoints unused_endpoints h (VRef r) = Ok (h, 0))
  ∧ (∀ p pd endpoint rest n,
       paths_at h (VRef r) p pd →
       KStr endpoint ∉ dict_keys pd →
       remove_loop (VRef r) (endpoint :: rest) h n
       = remove_loop (VRef r) rest h n)
  ∧ (∀ p pd,
       paths_at h (VRef r) p pd →
       (∀ endpoint, endpoint ∈ unused_endpoints → KStr endpoint ∉ dict_keys pd) →
       remove_endpoints unused_endpoints h (VRef r) = Ok (h, 0)).
Proof.
  intros Hr. split_and!.
  - by apply remove_endpoints_no_paths.
  - intros p pd e rest n. apply remove_loop_absent.
  - intros p pd Hat Hno.
    rewrite (remove_endpoints_dict _ _ _ _ _ Hat paths_not_unused
               unused_endpoints_NoDup).
    rewrite dict_remove_all_none by done.
    rewrite insert_id by apply Hat. do 2 f_equal.
    apply length_zero_iff_nil, elem_of_nil_inv.
    intros e [Hin He]%list_elem_of_filter. by apply (Hno e).
Qed.

Lemma missing_paths_or_entry_is_no_error_witness :
  remove_endpoints unused_endpoints bare_heap (VRef 1) = Ok (bare_heap, 0).
Proof.
  refine (proj1 (missing_paths_or_entry_is_no_error bare_heap 1
                   [(KStr "openapi", VStr "3.0.0")] _) _).
  - reflexivity.
  - by apply (bool_decide_unpack _).
Defined.

(** C8.  Running the remover on the outcome of a first run leaves the
    store, hence the key set of [paths], as the first run left it, and
    counts zero removals. *)
Theorem removal_is_idempotent h swagger_data h1 n :
  remove_endpoints unused_endpoints h swagger_data = Ok (h1, n) →
  remove_endpoints unused_endpoints h1 swagger_data = Ok (h1, 0).
Proof.
  apply remove_endpoints_twice;
    [apply paths_not_unused|apply unused_endpoints_NoDup].
Qed.

Lemma removal_is_idempotent_witness :
  ∃ h1, remove_endpoints unused_endpoints sample_heap (VRef 1) = Ok (h1, 2)
        ∧ remove_endpoints unused_endpoints h1 (VRef 1) = Ok (h1, 0).
Proof.
  destruct (remove_endpoints unused_endpoints sample_heap (VRef 1))
    as [[h1 n]|] eqn:Hrun.
  - exists h1. assert (n = 2) as -> by (vm_compute in Hrun; congruence).
    split; [reflexivity|].
    exact (removal_is_idempotent _ _ _ _ Hrun).
  - vm_compute in Hrun. discriminate.
Defined.

(** ** The store after the remover *)

Lemma dict_of_Some h v d :
  dict_of h v = Some d ↔ ∃ l, v = VRef l ∧ h !! l = Some (ODict d).
Proof.
  split.
  - destruct v as [| | | | |l]; try done. simpl.
    destruct (h !! l) as [[d'|]|] eqn:Hl; try done. intros [= ->]. eauto.
  - intros (l & -> & Hl). simpl. by rewrite Hl.
Qed.

(** The remover leaves every binding of the top-level mapping whose key is
    not on its list. *)
Lemma root_lookup_after_removal es (h : heap) r rd p pd k :
  h !! r = Some (ODict rd) →
  h !! p = Some (ODict pd) →
  k ∉ KStr <$> es →
  ∃ rd', <[p := ODict (dict_remove_all es pd)]> h !! r = Some (ODict rd')
         ∧ dict_lookup k rd' = dict_lookup k rd.
Proof.
  intros Hr Hp Hk. destruct (decide (p = r)) as [->|Hne].
  - rewrite lookup_insert_eq. simplify_eq. eexists. split; [done|].
    by apply dict_lookup_remove_all.
  - rewrite lookup_insert_ne by done. eauto.
Qed.

Lemma dict_of_after_update h p d0 d v :
  h !! p = Some (ODict d0) →
  is_Some (dict_of h v) → is_Some (dict_of (<[p := ODict d]> h) v).
Proof.
  intros Hp [d' (l & -> & Hl)%dict_of_Some]. simpl.
  destruct (decide (p = l)) as [->|Hne].
  - rewrite lookup_insert_eq. eauto.
  - rewrite lookup_insert_ne, Hl by done. eauto.
Qed.

(** The remover keeps a document in shape. *)
Lemma well_shaped_after_removal es h root h1 n :
  "paths" ∉ es → "info" ∉ es → NoDup es →
  well_shaped h root →
  remove_endpoints es h root = Ok (h1, n) →
  well_shaped h1 root.
Proof.
  intros Hes Hinfo Hnodup Hshape Hrun.
  destruct (remove_endpoints_Ok_inv _ _ _ _ _ Hes Hnodup Hrun)
    as [[-> _]|(p & pd & Hat & ->)]; [done|].
  destruct Hshape as (rd & (r & -> & Hr)%dict_of_Some & Hpaths & Hinf).
  destruct Hat as [_ Hp].
  assert (∀ s, s ∉ es → KStr s ∉ KStr <$> es) as Hkey.
  { intros s Hs (e & [= <-] & He)%list_elem_of_fmap. done. }
  destruct (root_lookup_after_removal es h r rd p pd (KStr "paths") Hr Hp
              (Hkey _ Hes)) as (rd' & Hr' & Hlp).
  destruct (root_lookup_after_removal es h r rd p pd (KStr "info") Hr Hp
              (Hkey _ Hinfo)) as (rd'' & Hr'' & Hli).
  simplify_eq. exists rd'. split_and!.
  - simpl. by rewrite Hr'.
  - intros v Hv. rewrite Hlp in Hv.
    eapply dict_of_after_update; [done|by apply Hpaths].
  - intros v Hv. rewrite Hli in Hv.
    eapply dict_of_after_update; [done|by apply Hinf].
Qed.

(** The remover returns on every document in shape. *)
Lemma remove_endpoints_total es h root :
  "paths" ∉ es → NoDup es →
  well_shaped h root →
  ∃ h1 n, remove_endpoints es h root = Ok (h1, n).
Proof.
  intros Hes Hnodup (rd & (r & -> & Hr)%dict_of_Some & Hpaths & _).
  destruct (dict_lookup (KStr "paths") rd) as [pv|] eqn:Hpv.
  - destruct (Hpaths pv eq_refl) as [pd (p & -> & Hp)%dict_of_Some].
    assert (paths_at h (VRef r) p pd) as Hat.
    { split; [|done]. simpl. by rewrite Hr, Hpv. }
    rewrite (remove_endpoints_dict _ _ _ _ _ Hat Hes Hnodup). eauto.
  - rewrite (remove_endpoints_no_paths es h r rd Hr); [by eauto|].
    by apply dict_lookup_None.
Qed.

(** The annotator returns on every document in shape. *)
Lemma annotate_total py_repr h root today :
  well_shaped h root → ∃ h2, annotate py_repr h root today = Ok h2.
Proof.
  intros (rd & (r & -> & Hr)%dict_of_Some & _ & Hinf).
  destruct (dict_lookup (KStr "info") rd) as [iv|] eqn:Hiv.
  - destruct (Hinf iv eq_refl) as [idd (i & -> & Hi)%dict_of_Some].
    rewrite (annotate_info_present py_repr h r rd i idd today Hr Hiv Hi).
    eauto.
  - rewrite (annotate_info_absent py_repr h r rd today Hr Hiv). eauto.
Qed.

Lemma clean_document_Ok py_repr h root today h2 n :
  clean_document py_repr h root today = Ok (h2, n)
  ↔ ∃ h1, remove_endpoints unused_endpoints h root = Ok (h1, n)
          ∧ annotate py_repr h1 root today = Ok h2.
Proof.
  unfold clean_document. split.
  - destruct (remove_endpoints unused_endpoints h root) as [[h1 n1]|];
      [|done]. simpl.
    destruct (annotate py_repr h1 root today) as [h2'|] eqn:Hann; [|done].
    intros [= <- <-]. eauto.
  - intros (h1 & -> & Hann). simpl. by rewrite Hann.
Qed.

(** ** Claims about the remover and the annotator together *)

(** C4, as stated, fails: with [paths: ~] the remover raises [TypeError] at
    [len], and with [info: ~] the annotator raises [AttributeError] at
    [.get], so the steps of lines 79-99 do not return on every parsed
    document. *)
Lemma remover_and_annotator_can_raise :
  remove_endpoints unused_endpoints null_paths_heap (VRef 1) = Raise TypeError
  ∧ annotate no_repr null_info_heap (VRef 1) "2025-01-15"
    = Raise AttributeError
  ∧ clean_document no_repr null_info_heap (VRef 1) "2025-01-15"
    = Raise AttributeError.
Proof. split_and!; by vm_compute. Qed.

(** C4, amended.  On a top-level mapping whose [paths] and [info], when
    present, are mappings, the remover returns and the annotator returns on
    what the remover left. *)
Theorem remover_and_annotator_return_on_shaped_documents
    py_repr h swagger_data today :
  well_shaped h swagger_data →
  ∃ h1 n h2,
    remove_endpoints unused_endpoints h swagger_data = Ok (h1, n)
    ∧ annotate py_repr h1 swagger_data today = Ok h2
    ∧ clean_document py_repr h swagger_data today = Ok (h2, n).
Proof.
  intros Hshape.
  destruct (remove_endpoints_total unused_endpoints h swagger_data
              paths_not_unused unused_endpoints_NoDup Hshape)
    as (h1 & n & Hrem).
  assert (well_shaped h1 swagger_data) as Hshape1.
  { eapply (well_shaped_after_removal unused_endpoints); try done.
    - apply paths_not_unused.
    - apply unused_endpoints_not_reserved. set_solver.
    - apply unused_endpoints_NoDup. }
  destruct (annotate_total py_repr h1 swagger_data today Hshape1)
    as (h2 & Hann).
  exists h1, n, h2. split_and!; [done..|].
  apply clean_document_Ok. eauto.
Qed.

Lemma sample_well_shaped : well_shaped sample_heap (VRef 1).
Proof.
  eexists. split; [reflexivity|].
  split; intros v [= <-]; by eexists.
Defined.

Lemma remover_and_annotator_return_on_shaped_documents_witness :
  ∃ h1 n h2,
    remove_endpoints unused_endpoints sample_heap (VRef 1) = Ok (h1, n)
    ∧ annotate no_repr h1 (VRef 1) "2025-01-15" = Ok h2
    ∧ clean_document no_repr sample_heap (VRef 1) "2025-01-15" = Ok (h2, n).
Proof.
  exact (remover_and_annotator_return_on_shaped_documents
           no_repr sample_heap (VRef 1) "2025-01-15" sample_well_shaped).
Defined.

(** C5, as stated, fails on a description that is not a string.  With
    [info: {description: ~}] the key is there, so line 98 reads [None] and
    not the default, and line 99 formats it: the description stored is the
    text [None] followed by the note, in a document that had no
    description text. *)
Lemma null_description_becomes_text :
  original_description null_description_heap (VRef 1) = VNone
  ∧ ∃ h2 info,
      annotate no_repr null_description_heap (VRef 1) "2025-01-15" = Ok h2
      ∧ py_getitem h2 (VRef 1) "info" = Ok info
      ∧ py_getitem h2 info "description"
        = Ok (VStr ("None" +:+ cleanup_note "2025-01-15"))
      ∧ "None" +:+ cleanup_note "2025-01-15" ≠ cleanup_note "2025-01-15".
Proof.
  split; [by vm_compute|].
  destruct (annotate no_repr null_description_heap (VRef 1) "2025-01-15")
    as [h2|] eqn:Hrun; [|by vm_compute in Hrun].
  exists h2, (VRef 3). split; [done|].
  vm_compute in Hrun. injection Hrun as <-.
  split_and!; [by vm_compute..|].
  by apply (bool_decide_unpack _); vm_compute.
Qed.

(** C5, amended.  When the annotator returns on a document whose
    description is a string or is missing, [info.description] of the
    document it leaves is that string (the empty string when [info] or
    [description] was missing) followed by the note that carries the date;
    [info] and [description] exist afterwards. *)
Theorem description_is_appended_to py_repr h swagger_data today h2 s :
  annotate py_repr h swagger_data today = Ok h2 →
  original_description h swagger_data = VStr s →
  ∃ info,
    py_getitem h2 swagger_data "info" = Ok info
    ∧ py_getitem h2 info "description" = Ok (VStr (s +:+ cleanup_note today)).
Proof.
  intros Hrun Horig.
  destruct (annotate_Ok_inv _ _ _ _ _ Hrun)
    as (r & rd & -> & Hr & [Hinfo|(i & idd & Hinfo & Hi)]).
  - rewrite (annotate_info_absent _ _ _ _ _ Hr Hinfo) in Hrun.
    injection Hrun as <-.
    assert (fresh (dom h) ≠ r) as Hfresh.
    { intros Heq. apply (is_fresh (dom h)). rewrite Heq.
      apply elem_of_dom. by rewrite Hr. }
    unfold original_description in Horig. simpl in Horig.
    rewrite Hr, Hinfo in Horig. injection Horig as <-.
    exists (VRef (fresh (dom h))). simpl.
    rewrite lookup_insert_ne, lookup_insert_eq by done.
    rewrite dict_lookup_insert_eq. split; [done|].
    by rewrite lookup_insert_eq.
  - rewrite (annotate_info_present _ _ _ _ _ _ _ Hr Hinfo Hi) in Hrun.
    injection Hrun as <-.
    unfold original_description in Horig. simpl in Horig.
    rewrite Hr, Hinfo in Horig. simpl in Horig. rewrite Hi in Horig.
    assert (new_description py_repr h (dict_lookup (KStr "description") idd)
              today = VStr (s +:+ cleanup_note today)) as ->.
    { unfold new_description.
      destruct (dict_lookup (KStr "description") idd) as [v|];
        simpl in Horig |- *; [by subst v|by injection Horig as <-]. }
    exists (VRef i). simpl. split.
    + destruct (decide (i = r)) as [->|Hne].
      * rewrite lookup_insert_eq. simplify_eq.
        by rewrite dict_lookup_insert_ne, Hinfo.
      * by rewrite lookup_insert_ne, Hr, Hinfo.
    + by rewrite lookup_insert_eq, dict_lookup_insert_eq.
Qed.

Lemma description_is_appended_to_witness :
  ∃ h2,
    annotate no_repr sample_heap (VRef 1) "2025-01-15" = Ok h2
    ∧ ∃ info,
        py_getitem h2 (VRef 1) "info" = Ok info
        ∧ py_getitem h2 info "description"
          = Ok (VStr ("Accounting" +:+ cleanup_note "2025-01-15")).
Proof.
  destruct (annotate no_repr sample_heap (VRef 1) "2025-01-15")
    as [h2|] eqn:Hrun; [|by vm_compute in Hrun].
  exists h2. split; [done|].
  apply (description_is_appended_to _ _ _ _ _ _ Hrun). reflexivity.
Defined.

(** The annotator writes to the [info] dictionary, and to the top-level
    mapping when that has no [info] key; a [paths] dictionary that is
    neither of them is left as it was. *)
Lemma annotate_keeps_paths py_repr h root p pd today h2 :
  paths_at h root p pd →
  py_getitem h root "info" ≠ Ok (VRef p) →
  (root = VRef p → py_contains h "info" root = Ok true) →
  annotate py_repr h root today = Ok h2 →
  paths_at h2 root p pd.
Proof.
  intros [Hget Hp] Hinfo_ne Hroot Hrun.
  destruct (annotate_Ok_inv _ _ _ _ _ Hrun)
    as (r & rd & -> & Hr & [Hinfo|(i & idd & Hinfo & Hi)]).
  - rewrite (annotate_info_absent _ _ _ _ _ Hr Hinfo) in Hrun.
    injection Hrun as <-.
    assert (∀ l o, h !! l = Some o → fresh (dom h) ≠ l) as Hfresh.
    { intros l o Hl Heq. apply (is_fresh (dom h)). rewrite Heq.
      apply elem_of_dom. by rewrite Hl. }
    assert (r ≠ p) as Hrp.
    { intros ->. specialize (Hroot eq_refl). simpl in Hroot.
      rewrite Hr in Hroot. injection Hroot as Hin.
      apply bool_decide_eq_true_1, dict_lookup_is_Some in Hin.
      rewrite Hinfo in Hin. by destruct Hin. }
    simpl in Hget. rewrite Hr in Hget. split.
    + simpl. rewrite lookup_insert_ne, lookup_insert_eq by eauto.
      by rewrite dict_lookup_insert_ne.
    + by rewrite !lookup_insert_ne by eauto.
  - rewrite (annotate_info_present _ _ _ _ _ _ _ Hr Hinfo Hi) in Hrun.
    injection Hrun as <-.
    assert (i ≠ p) as Hip.
    { intros ->. apply Hinfo_ne. simpl. by rewrite Hr, Hinfo. }
    simpl in Hget. rewrite Hr in Hget. split.
    + simpl. destruct (decide (i = r)) as [->|Hne].
      * rewrite lookup_insert_eq. simplify_eq.
        by rewrite dict_lookup_insert_ne.
      * by rewrite lookup_insert_ne, Hr.
    + by rewrite lookup_insert_ne.
Qed.

(** The remover does not change what the top-level mapping binds to a key
    that is not on its list. *)
Lemma root_getitem_after_removal es h root p pd k :
  paths_at h root p pd →
  k ∉ es →
  py_getitem (<[p := ODict (dict_remove_all es pd)]> h) root k
  = py_getitem h root k
  ∧ py_contains (<[p := ODict (dict_remove_all es pd)]> h) k root
    = py_contains h k root.
Proof.
  intros Hat Hk.
  destruct (paths_at_root _ _ _ _ Hat) as (r & rd & -> & Hr & _).
  destruct Hat as [_ Hp].
  assert (KStr k ∉ KStr <$> es) as Hkey.
  { intros (e & [= <-] & He)%list_elem_of_fmap. done. }
  destruct (root_lookup_after_removal es h r rd p pd (KStr k) Hr Hp Hkey)
    as (rd' & Hr' & Hlk).
  simpl. rewrite Hr', Hr, Hlk. split; [done|].
  f_equal. apply bool_decide_ext.
  by rewrite <- !dict_lookup_is_Some, Hlk.
Qed.

(** C1, as stated, fails: when [info] is a YAML alias of the [paths]
    mapping, the annotator stores [description] in that very dictionary, so
    the [paths] of the output document has a key that the input had not. *)
Lemma paths_keys_of_output_counterexample :
  let pd := [(KStr "/a", VNone); (KStr "/journal-entries/summary", VNone)] in
  paths_at info_alias_heap (VRef 1) 2 pd
  ∧ ∃ h2 pd2,
      clean_document no_repr info_alias_heap (VRef 1) "2025-01-15"
      = Ok (h2, 1)
      ∧ paths_at h2 (VRef 1) 2 pd2
      ∧ dict_key_set pd2 ≠ dict_key_set pd ∖ targets.
Proof.
  split; [by split|].
  eexists _, _. split_and!.
  - by vm_compute.
  - split; by vm_compute.
  - intros Heq.
    apply (f_equal (λ X : gset key, bool_decide (KStr "description" ∈ X)))
      in Heq.
    by vm_compute in Heq.
Qed.

(** C1, amended.  For a document whose [paths] is a mapping, the keys of
    [paths] at the end of the removal loop are those of the input that are
    not on the removal list; the same holds in the output document when the
    annotator does not write to that dictionary, that is, when [paths] is
    not also the [info] mapping, nor the top-level mapping in a document
    without [info] key. *)
Theorem paths_keys_are_input_keys_minus_targets
    py_repr h swagger_data p pd today :
  paths_at h swagger_data p pd →
  (∃ h1 n pd1,
     remove_endpoints unused_endpoints h swagger_data = Ok (h1, n)
     ∧ paths_at h1 swagger_data p pd1
     ∧ dict_key_set pd1 = dict_key_set pd ∖ targets)
  ∧ (py_getitem h swagger_data "info" ≠ Ok (VRef p) →
     (swagger_data = VRef p → py_contains h "info" swagger_data = Ok true) →
     ∀ h2 n,
       clean_document py_repr h swagger_data today = Ok (h2, n) →
       ∃ pd2, paths_at h2 swagger_data p pd2
              ∧ dict_key_set pd2 = dict_key_set pd ∖ targets).
Proof.
  intros Hat.
  pose proof (remove_endpoints_dict _ _ _ _ _ Hat paths_not_unused
                unused_endpoints_NoDup) as Hrem.
  pose proof (paths_at_remove_all_of _ _ _ _ _ paths_not_unused Hat) as Hat1.
  split.
  - eexists _, _, _. split_and!; [done..|]. apply dict_key_set_remove_all.
  - intros Hinfo Hroot h2 n (h1 & Hrem' & Hann)%clean_document_Ok.
    rewrite Hrem in Hrem'. injection Hrem' as <- <-.
    destruct (root_getitem_after_removal unused_endpoints _ _ _ _ "info" Hat)
      as [Hget Hin]; [apply unused_endpoints_not_reserved; set_solver|].
    eexists. split; [|apply dict_key_set_remove_all].
    eapply annotate_keeps_paths; [done| | |done].
    + by rewrite Hget.
    + rewrite Hin. done.
Qed.

Lemma paths_keys_are_input_keys_minus_targets_witness :
  (∃ h1 n pd1,
     remove_endpoints unused_endpoints sample_heap (VRef 1) = Ok (h1, n)
     ∧ paths_at h1 (VRef 1) 2 pd1
     ∧ dict_key_set pd1 = dict_key_set sample_paths ∖ targets)
  ∧ ∃ h2 n pd2,
      clean_document no_repr sample_heap (VRef 1) "2025-01-15" = Ok (h2, n)
      ∧ paths_at h2 (VRef 1) 2 pd2
      ∧ dict_key_set pd2 = dict_key_set sample_paths ∖ targets.
Proof.
  destruct (paths_keys_are_input_keys_minus_targets no_repr sample_heap
              (VRef 1) 2 sample_paths "2025-01-15") as [Hloop Hout].
  { split; reflexivity. }
  split; [exact Hloop|].
  destruct (clean_document no_repr sample_heap (VRef 1) "2025-01-15")
    as [[h2 n]|] eqn:Hrun; [|by vm_compute in Hrun].
  destruct (Hout ltac:(by vm_compute) ltac:(by intros [=]) h2 n eq_refl)
    as (pd2 & Hat & Hkeys).
  by exists h2, n, pd2.
Defined.

(** ** The frame of lines 79-99 *)

Lemma reach_allocated h v l : reach h v l → is_Some (h !! l).
Proof. induction 1; eauto. Qed.

(** What the two steps do to the store of a document whose top-level
    mapping, [paths] and [info] are distinct objects. *)
Lemma cleanup_effect es py_repr (h : heap) r rd today h1 n h2 :
  "paths" ∉ es → NoDup es →
  h !! r = Some (ODict rd) →
  NoDup (r :: ref_of (dict_lookup (KStr "paths") rd)
           ++ ref_of (dict_lookup (KStr "info") rd)) →
  remove_endpoints es h (VRef r) = Ok (h1, n) →
  annotate py_repr h1 (VRef r) today = Ok h2 →
  (∃ rd', h2 !! r = Some (ODict rd')
          ∧ ∀ k, k ≠ KStr "info" → dict_lookup k rd' = dict_lookup k rd)
  ∧ (∀ l o, h !! l = Some o →
            l ∉ r :: ref_of (dict_lookup (KStr "paths") rd)
                  ++ ref_of (dict_lookup (KStr "info") rd) →
            h2 !! l = Some o)
  ∧ (∀ p pd, dict_lookup (KStr "paths") rd = Some (VRef p) →
             h !! p = Some (ODict pd) →
             h2 !! p = Some (ODict (dict_remove_all es pd)))
  ∧ (∀ i idd, dict_lookup (KStr "info") rd = Some (VRef i) →
              h !! i = Some (ODict idd) →
              ∃ idd', h2 !! i = Some (ODict idd')
                      ∧ ∀ k, k ≠ KStr "description" →
                             dict_lookup k idd' = dict_lookup k idd).
Proof.
  intros Hes Hnodup Hr Hdistinct Hrem Hann.
  (* the store after the remover *)
  assert (h1 !! r = Some (ODict rd)
          ∧ (∀ l, l ∉ ref_of (dict_lookup (KStr "paths") rd) →
                  h1 !! l = h !! l)
          ∧ (∀ p pd, dict_lookup (KStr "paths") rd = Some (VRef p) →
                     h !! p = Some (ODict pd) →
                     h1 !! p = Some (ODict (dict_remove_all es pd))))
    as (Hr1 & Hframe1 & Hpaths1).
  { destruct (remove_endpoints_Ok_inv _ _ _ _ _ Hes Hnodup Hrem)
      as [[-> _]|(p & pd & [Hget Hp] & ->)].
    - split_and!; [done..|]. intros p pd Hlk Hp.
      assert (paths_at h (VRef r) p pd) as Hat.
      { split; [|done]. simpl. by rewrite Hr, Hlk. }
      rewrite (remove_endpoints_dict _ _ _ _ _ Hat Hes Hnodup) in Hrem.
      injection Hrem as Hh _. rewrite <- Hh. apply lookup_insert_eq.
    - simpl in Hget. rewrite Hr in Hget.
      destruct (dict_lookup (KStr "paths") rd) as [pv|] eqn:Hlk; [|done].
      injection Hget as ->. simpl in Hdistinct.
      apply NoDup_cons in Hdistinct as [Hrp _].
      assert (p ≠ r) as Hne by (intros ->; apply Hrp; set_solver).
      split_and!.
      + by rewrite lookup_insert_ne.
      + intros l Hl. rewrite lookup_insert_ne; [done|]. set_solver.
      + intros p' pd' [= <-] Hp'. simplify_eq. by rewrite lookup_insert_eq. }
  (* the store after the annotator *)
  destruct (annotate_Ok_inv _ _ _ _ _ Hann)
    as (r' & rd1 & [= <-] & Hr1' & Hcase).
  rewrite Hr1 in Hr1'. injection Hr1' as <-.
  destruct Hcase as [Hinfo|(i & idd1 & Hinfo & Hi1)].
  - rewrite (annotate_info_absent _ _ _ _ _ Hr1 Hinfo) in Hann.
    injection Hann as <-.
    assert (∀ l o, h1 !! l = Some o → fresh (dom h1) ≠ l) as Hfresh.
    { intros l o Hl Heq. apply (is_fresh (dom h1)). rewrite Heq.
      apply elem_of_dom. by rewrite Hl. }
    rewrite Hinfo in *. simpl in *. split_and!.
    + eexists. split.
      * rewrite lookup_insert_ne, lookup_insert_eq by eauto. done.
      * intros k Hk. by rewrite dict_lookup_insert_ne.
    + intros l o Hl Hout.
      assert (h1 !! l = Some o) as Hl1.
      { rewrite Hframe1; [done|]. set_solver. }
      rewrite !lookup_insert_ne; [done|eauto|set_solver|eauto].
    + intros p pd Hlk Hp. specialize (Hpaths1 p pd Hlk Hp).
      rewrite Hlk in Hdistinct. simpl in Hdistinct.
      apply NoDup_cons in Hdistinct as [Hrp _].
      rewrite !lookup_insert_ne; [done|eauto|set_solver|eauto].
    + intros i idd [=].
  - rewrite (annotate_info_present _ _ _ _ _ _ _ Hr1 Hinfo Hi1) in Hann.
    injection Hann as <-.
    rewrite Hinfo in *. simpl in Hdistinct.
    apply NoDup_cons in Hdistinct as [Hri Hpi].
    assert (i ≠ r) as Hne by (intros ->; apply Hri; set_solver).
    assert (i ∉ ref_of (dict_lookup (KStr "paths") rd)) as Hip.
    { apply NoDup_app in Hpi as (_ & Hdisj & _).
      intros Hin. apply (Hdisj i Hin). set_solver. }
    split_and!.
    + exists rd. split; [by rewrite lookup_insert_ne|done].
    + intros l o Hl Hout.
      rewrite lookup_insert_ne by set_solver.
      rewrite Hframe1; [done|]. set_solver.
    + intros p pd Hlk Hp. rewrite Hlk in Hip. simpl in Hip.
      rewrite lookup_insert_ne by set_solver. by apply Hpaths1.
    + intros i' idd [= <-] Hi. rewrite Hframe1 in Hi1 by done.
      simplify_eq. eexists. split; [by rewrite lookup_insert_eq|].
      intros k Hk. by rewrite dict_lookup_insert_ne.
Qed.

(** C9, as stated, fails: in a document where another top-level key is a
    YAML alias of the [paths] mapping, deleting from [paths] deletes from
    the value of that key as well. *)
Lemma frame_counterexample :
  ∃ h2,
    clean_document no_repr legacy_alias_heap (VRef 1) "2025-01-15"
    = Ok (h2, 1)
    ∧ ¬ frame_holds legacy_alias_heap (VRef 1) h2.
Proof.
  eexists. split; [by vm_compute|].
  intros Hframe.
  destruct (Hframe _ eq_refl) as (rd' & _ & Htop & _).
  destruct (Htop (KStr "x-legacy-paths") ltac:(done) ltac:(done)
              (VRef 2) eq_refl) as [_ Hsame].
  assert (reach legacy_alias_heap (VRef 2) 2) as Hreach
    by (eapply reach_here; vm_compute; reflexivity).
  specialize (Hsame 2%positive Hreach).
  by vm_compute in Hsame.
Qed.

(** C9, amended.  In a document where no alias leads to the top-level
    mapping, to [paths] or to [info], lines 79-99 leave every top-level key
    other than [paths] and [info], every key of [paths] that is not on the
    removal list and every key of [info] other than [description] with the
    value it had. *)
Theorem mutation_is_confined py_repr h swagger_data today h2 n :
  unaliased h swagger_data →
  clean_document py_repr h swagger_data today = Ok (h2, n) →
  frame_holds h swagger_data h2.
Proof.
  intros [Hdistinct Hapart] (h1 & Hrem & Hann)%clean_document_Ok rd Hrd.
  pose proof Hrd as (r & -> & Hr)%dict_of_Some.
  destruct (Hapart rd Hrd) as (Htop & Hpaths & Hinfo).
  assert (written h (VRef r)
          = r :: ref_of (dict_lookup (KStr "paths") rd)
              ++ ref_of (dict_lookup (KStr "info") rd)) as Hwritten.
  { unfold written. by rewrite Hrd. }
  rewrite Hwritten in Hdistinct.
  destruct (cleanup_effect _ _ _ _ _ _ _ _ _ paths_not_unused
              unused_endpoints_NoDup Hr Hdistinct Hrem Hann)
    as ((rd' & Hr2 & Hlk2) & Hframe & Hp2 & Hi2).
  assert (∀ v, apart h (VRef r) v → same_content h h2 v) as Hsame.
  { intros v Hv l Hl. destruct (reach_allocated _ _ _ Hl) as [o Ho].
    rewrite Ho. apply Hframe; [done|]. rewrite <- Hwritten.
    intros Hin. by apply (Hv l). }
  exists rd'. split; [simpl; by rewrite Hr2|]. split_and!.
  - intros k Hk1 Hk2 v Hv. split; [by rewrite Hlk2|].
    by apply Hsame, (Htop k v).
  - intros pv pd Hpv Hpd.
    pose proof Hpd as (p & -> & Hp)%dict_of_Some.
    exists (dict_remove_all unused_endpoints pd).
    split; [simpl; by rewrite (Hp2 p pd)|].
    intros k Hk v Hv. split.
    + rewrite dict_lookup_remove_all; [done|]. by rewrite <- elem_of_targets.
    + by apply Hsame, (Hpaths (VRef p) pd k v).
  - intros iv idd Hiv Hidd.
    pose proof Hidd as (i & -> & Hi)%dict_of_Some.
    destruct (Hi2 i idd Hiv Hi) as (idd' & Hi' & Hlk').
    exists idd'. split; [simpl; by rewrite Hi'|].
    intros k Hk v Hv. split; [by rewrite Hlk'|].
    by apply Hsame, (Hinfo (VRef i) idd k v).
Qed.

Lemma tree_heap_unaliased : unaliased tree_heap (VRef 1).
Proof.
  assert (written tree_heap (VRef 1) = [1; 2; 3]%positive) as Hwritten
    by (by vm_compute).
  unfold unaliased, apart. rewrite Hwritten. split.
  - apply (bool_decide_unpack _). by vm_compute.
  - intros rd Hrd. vm_compute in Hrd. injection Hrd as <-. split_and!.
    + intros k v Hk1 Hk2 Hv%dict_lookup_elem_of l Hl Hreach.
      reach_inv.
    + intros pv pd k v [= <-] Hpd Hk Hv%dict_lookup_elem_of l Hl Hreach.
      vm_compute in Hpd. injection Hpd as <-. reach_inv.
    + intros iv idd k v [= <-] Hidd Hk Hv%dict_lookup_elem_of l Hl Hreach.
      vm_compute in Hidd. injection Hidd as <-. reach_inv.
Defined.

Lemma mutation_is_confined_witness :
  ∃ h2 n,
    clean_document no_repr tree_heap (VRef 1) "2025-01-15" = Ok (h2, n)
    ∧ frame_holds tree_heap (VRef 1) h2.
Proof.
  destruct (clean_document no_repr tree_heap (VRef 1) "2025-01-15")
    as [[h2 n]|] eqn:Hrun; [|by vm_compute in Hrun].
  exists h2, n. split; [done|].
  exact (mutation_is_confined _ _ _ _ _ _ tree_heap_unaliased Hrun).
Defined.

(** ** Files *)

Lemma io_bind_inv {A B} (m : io A) (f : A → io B) fs fs' r :
  (m ≫= f) fs = (fs', r) →
  (∃ e, m fs = (fs', Raise e) ∧ r = Raise e)
  ∨ (∃ fs1 a, m fs = (fs1, Ok a) ∧ f a fs1 = (fs', r)).
Proof.
  unfold mbind, io_bind. destruct (m fs) as [fs1 [a|e]].
  - right. eauto.
  - intros [= <- <-]. left. eauto.
Qed.

Lemma io_bind_Ok {A B} (m : io A) (f : A → io B) fs fs1 a :
  m fs = (fs1, Ok a) → (m ≫= f) fs = f a fs1.
Proof. unfold mbind, io_bind. by intros ->. Qed.

Lemma io_bind_Raise {A B} (m : io A) (f : A → io B) fs fs1 e :
  m fs = (fs1, Raise e) → (m ≫= f) fs = (fs1, Raise e).
Proof. unfold mbind, io_bind. by intros ->. Qed.

Lemma only_writes_ret {A} W (a : A) : only_writes W (mret a).
Proof. by intros fs fs' r [= <- _]. Qed.

Lemma only_writes_raise {A} W e : only_writes W (@io_raise A e).
Proof. by intros fs fs' r [= <- _]. Qed.

Lemma only_writes_lift {A} W (x : result A) : only_writes W (io_lift x).
Proof. by intros fs fs' r [= <- _]. Qed.

Lemma only_writes_bind {A B} W (m : io A) (f : A → io B) :
  only_writes W m → (∀ a, only_writes W (f a)) → only_writes W (m ≫= f).
Proof.
  intros Hm Hf fs fs' r [(e & Hrun & _)|(fs1 & a & Hrun & Hk)]%io_bind_inv
    path Hpath.
  - by apply (Hm _ _ _ Hrun).
  - rewrite (Hf a _ _ _ Hk) by done. by apply (Hm _ _ _ Hrun).
Qed.

Lemma only_writes_os_call W E c : only_writes W (os_call E c).
Proof.
  unfold os_call. destruct (io_error E c).
  - apply only_writes_raise.
  - apply only_writes_ret.
Qed.

Lemma only_writes_read_file W path : only_writes W (read_file path).
Proof.
  intros fs fs' r. unfold read_file.
  by destruct (fs !! path); intros [= <- _].
Qed.

Lemma only_writes_write_file W path content :
  path ∈ W → only_writes W (write_file path content).
Proof.
  intros Hin fs fs' r [= <- _] path' Hout.
  apply lookup_insert_ne. by intros ->.
Qed.

Lemma only_writes_print W E l : only_writes W (py_print E l).
Proof.
  unfold py_print. destruct (stdout_encodes E l).
  - apply only_writes_ret.
  - apply only_writes_raise.
Qed.

Lemma only_writes_write_or_fail W E c path content :
  path ∈ W → only_writes W (write_or_fail E c path content).
Proof.
  intros Hin. unfold write_or_fail.
  destruct (io_error E c); [|by apply only_writes_write_file].
  apply only_writes_bind; [|intros _; apply only_writes_raise].
  destruct (reached E c); [by apply only_writes_write_file|].
  apply only_writes_ret.
Qed.

Lemma only_writes_rewrite_source W E D :
  swagger_file ∈ W → only_writes W (rewrite_source E D).
Proof.
  intros Hin. unfold rewrite_source.
  apply only_writes_bind; [apply only_writes_os_call|]. intros _.
  destruct (dump E D) as [text [e|]].
  - apply only_writes_bind; [by apply only_writes_write_file|]. intros _.
    apply only_writes_raise.
  - apply only_writes_bind; [by apply only_writes_write_file|]. intros _.
    apply only_writes_ret.
Qed.

Lemma only_writes_report W E es n backup :
  report_file ∈ W → only_writes W (generate_cleanup_report E es n backup).
Proof.
  intros Hin. unfold generate_cleanup_report.
  apply only_writes_bind; [by apply only_writes_write_or_fail|]. intros _.
  apply only_writes_print.
Qed.

Lemma only_writes_clean_swagger_file E :
  only_writes [swagger_file] (clean_swagger_file E).
Proof.
  unfold clean_swagger_file.
  apply only_writes_bind; [apply only_writes_os_call|]. intros _.
  apply only_writes_bind; [apply only_writes_read_file|]. intros text.
  apply only_writes_bind; [apply only_writes_lift|]. intros D.
  apply only_writes_bind; [apply only_writes_lift|]. intros [h n].
  apply only_writes_bind; [apply only_writes_lift|]. intros h2.
  apply only_writes_bind.
  { apply only_writes_rewrite_source, list_elem_of_here. }
  intros _.
  apply only_writes_bind; [apply only_writes_print|]. intros _.
  apply only_writes_bind; [apply only_writes_print|]. intros _.
  apply only_writes_ret.
Qed.

Lemma only_writes_weaken {A} W W' (m : io A) :
  W ⊆ W' → only_writes W m → only_writes W' m.
Proof. intros Hsub Hm fs fs' r Hrun path Hpath. apply (Hm _ _ _ Hrun). set_solver. Qed.

(** The body of the [try] writes to the source and to the report only. *)
Lemma only_writes_try_body E :
  only_writes [swagger_file; report_file] (try_body E).
Proof.
  unfold try_body.
  apply only_writes_bind.
  { eapply only_writes_weaken; [|apply only_writes_clean_swagger_file].
    apply list_subseteq_skip, list_subseteq_nil. }
  intros n.
  apply only_writes_bind; [|intros _; apply only_writes_ret].
  apply only_writes_report. set_solver.
Qed.

(** The three paths are distinct, whatever the time stamp. *)
Lemma backup_file_not_source E : backup_file E ≠ swagger_file.
Proof. unfold backup_file, swagger_file. intros Heq. simplify_eq. Qed.

Lemma backup_file_not_report E : backup_file E ≠ report_file.
Proof. unfold backup_file, report_file. intros Heq. simplify_eq. Qed.

(** ** The backup-and-restore guard *)

Lemma py_print_run E l fs :
  stdout_encodes E l = true → py_print E l fs = (fs, Ok ()).
Proof. intros Hl. unfold py_print. by rewrite Hl. Qed.

Lemma py_print_fault E l fs :
  stdout_encodes E l = false →
  py_print E l fs = (fs, Raise UnicodeEncodeError).
Proof. intros Hl. unfold py_print. by rewrite Hl. Qed.

Lemma py_print_Ok_inv E l fs fs' :
  py_print E l fs = (fs', Ok ()) → stdout_encodes E l = true ∧ fs' = fs.
Proof.
  unfold py_print. destruct (stdout_encodes E l); [|done].
  by intros [= <-].
Qed.

Lemma write_or_fail_Ok_inv E c path content fs fs' :
  write_or_fail E c path content fs = (fs', Ok ()) →
  io_error E c = None ∧ fs' = <[path := content]> fs.
Proof.
  unfold write_or_fail. destruct (io_error E c) as [e|].
  - by intros [(? & _ & [=])|(? & [] & _ & [=])]%io_bind_inv.
  - by intros [= <-].
Qed.

Lemma write_or_fail_run E c path content fs :
  io_error E c = None →
  write_or_fail E c path content fs = (<[path := content]> fs, Ok ()).
Proof. intros Hc. unfold write_or_fail. by rewrite Hc. Qed.

(** A failing write leaves in the destination what had reached it. *)
Lemma write_or_fail_fault E c path content fs e :
  io_error E c = Some e →
  write_or_fail E c path content fs
  = (match reached E c with
     | Some n => <[path := str_take n content]> fs
     | None => fs
     end, Raise e).
Proof.
  intros Hc. unfold write_or_fail. rewrite Hc. by destruct (reached E c).
Qed.

Lemma copy2_Ok_inv E c src dst fs fs' :
  copy2 E c src dst fs = (fs', Ok ()) →
  io_error E c = None
  ∧ ∃ content, fs !! src = Some content ∧ fs' = <[dst := content]> fs.
Proof.
  unfold copy2.
  intros [(? & _ & [=])|(fa & content & Hread & Hw)]%io_bind_inv.
  unfold read_file in Hread.
  destruct (fs !! src) as [c0|] eqn:Hsrc; [|done].
  injection Hread as <- <-.
  apply write_or_fail_Ok_inv in Hw as [Hc ->]. eauto.
Qed.

Lemma copy2_run E c src dst fs content :
  io_error E c = None →
  fs !! src = Some content →
  copy2 E c src dst fs = (<[dst := content]> fs, Ok ()).
Proof.
  intros Hc Hsrc. unfold copy2.
  erewrite io_bind_Ok; last by (unfold read_file; rewrite Hsrc).
  by apply write_or_fail_run.
Qed.

Lemma copy2_fault E c src dst fs content e :
  io_error E c = Some e →
  fs !! src = Some content →
  copy2 E c src dst fs
  = (match reached E c with
     | Some n => <[dst := str_take n content]> fs
     | None => fs
     end, Raise e).
Proof.
  intros Hc Hsrc. unfold copy2.
  erewrite io_bind_Ok; last by (unfold read_file; rewrite Hsrc).
  by apply write_or_fail_fault.
Qed.


(** The handler raises at line 113 when standard output lacks a character
    of the line: lines 115-118 are not reached. *)
Lemma handler_print_fails E e fs1 :
  stdout_encodes E Line113 = false →
  restore_and_reraise E e fs1 = (fs1, Raise UnicodeEncodeError).
Proof.
  intros H113. unfold restore_and_reraise.
  apply io_bind_Raise. by apply py_print_fault.
Qed.

(** The handler when line 113 prints and the copy completes: line 117
    prints and line 118 re-raises, or line 117 raises. *)
Lemma handler_restores E e fs1 text :
  fs1 !! backup_file E = Some text →
  stdout_encodes E Line113 = true →
  io_error E RestoreCopy = None →
  restore_and_reraise E e fs1
  = (<[swagger_file := text]> fs1,
     Raise (if stdout_encodes E Line117 then e else UnicodeEncodeError)).
Proof.
  intros Hbackup H113 Hrestore. unfold restore_and_reraise.
  erewrite io_bind_Ok; last by apply py_print_run.
  erewrite io_bind_Ok; last first.
  { unfold path_exists. rewrite Hbackup.
    by rewrite bool_decide_eq_true_2 by eauto. }
  destruct (stdout_encodes E Line117) eqn:H117.
  - erewrite io_bind_Ok; [done|].
    erewrite io_bind_Ok; [by apply py_print_run|]. by apply copy2_run.
  - apply io_bind_Raise.
    erewrite io_bind_Ok; [by apply py_print_fault|]. by apply copy2_run.
Qed.

(** The handler when line 113 prints and the copy raises: the exception
    of the copy leaves the handler, and the source holds what reached
    it. *)
Lemma handler_restore_fails E e fs1 text e' :
  fs1 !! backup_file E = Some text →
  stdout_encodes E Line113 = true →
  io_error E RestoreCopy = Some e' →
  restore_and_reraise E e fs1
  = (match reached E RestoreCopy with
     | Some n => <[swagger_file := str_take n text]> fs1
     | None => fs1
     end, Raise e').
Proof.
  intros Hbackup H113 Hrestore. unfold restore_and_reraise.
  erewrite io_bind_Ok; last by apply py_print_run.
  erewrite io_bind_Ok; last first.
  { unfold path_exists. rewrite Hbackup.
    by rewrite bool_decide_eq_true_2 by eauto. }
  apply io_bind_Raise, io_bind_Raise. by apply copy2_fault.
Qed.

(** A run whose [try] raises ends as its handler does. *)
Lemma run_of_failed_body E fs fs0 fs1 e fs2 e2 :
  copy2 E BackupCopy swagger_file (backup_file E) fs = (fs0, Ok ()) →
  try_body E fs0 = (fs1, Raise e) →
  restore_and_reraise E e fs1 = (fs2, Raise e2) →
  remove_unused_endpoints E fs = (fs2, Raise e2).
Proof.
  intros Hcopy Hbody Hhandler. unfold remove_unused_endpoints.
  rewrite (io_bind_Ok _ _ _ _ _ Hcopy).
  apply io_bind_Raise. unfold try_except. by rewrite Hbody.
Qed.


(** A run is its final files paired with its outcome. *)
Lemma run_with_outcome {A} (m : io A) fs r :
  (m fs).2 = r → m fs = ((m fs).1, r).
Proof. intros <-. apply surjective_pairing. Qed.




(** ** A successful rewrite, and the report *)

Lemma rewrite_source_Ok E D fs fs' :
  rewrite_source E D fs = (fs', Ok ()) →
  ∃ text, dump E D = (text, None) ∧ fs' = <[swagger_file := text]> fs.
Proof.
  unfold rewrite_source, os_call.
  intros [(e & _ & [=])|(fs1 & [] & Hopen & Hrest)]%io_bind_inv.
  destruct (io_error E RewriteSource); [done|].
  injection Hopen as <-.
  destruct (dump E D) as [text [e|]].
  - by apply io_bind_inv in Hrest as [(e' & _ & [=])|(? & [] & _ & [=])].
  - apply io_bind_inv in Hrest as [(e' & _ & [=])|(? & [] & Hw & Hret)].
    injection Hw as <-. injection Hret as <-. eauto.
Qed.


Lemma generate_cleanup_report_Ok E es n backup fs fs' :
  generate_cleanup_report E es n backup fs = (fs', Ok ()) →
  fs' = <[report_file := report_content (now_report E) es n backup]> fs.
Proof.
  unfold generate_cleanup_report.
  intros [(? & _ & [=])|(fa & [] & Hw & Hp)]%io_bind_inv.
  apply py_print_Ok_inv in Hp as [_ ->].
  by apply write_or_fail_Ok_inv in Hw as [_ ->].
Qed.

(** When the body of the [try] completes with [removed_count = n], the
    report file holds the template filled with the clock, the length of the
    list, [n] and the backup path. *)
Lemma try_body_Ok_report E fs fs' n :
  try_body E fs = (fs', Ok n) →
  fs' !! report_file
  = Some (report_content (now_report E) unused_endpoints n (backup_file E)).
Proof.
  unfold try_body.
  intros [(? & _ & [=])|(fa & k & _ & Hrun)]%io_bind_inv.
  apply io_bind_inv in Hrun as [(? & _ & [=])|(fb & [] & Hrep & [= <- <-])].
  apply generate_cleanup_report_Ok in Hrep as ->.
  apply lookup_insert_eq.
Qed.

(** ** Substrings *)

Lemma prefix_app p s t :
  String.prefix p s = true → String.prefix p (s +:+ t) = true.
Proof.
  revert p. induction s as [|a s IH]; intros [|b p]; simpl; try done.
  - by destruct t.
  - destruct (Ascii.ascii_dec b a); [apply IH|done].
Qed.

Lemma str_contains_prefix p s :
  String.prefix p s = true → str_contains p s = true.
Proof. intros Hp. destruct s; cbn [str_contains]; by rewrite Hp. Qed.

Lemma str_contains_app_r p s t :
  str_contains p s = true → str_contains p (t +:+ s) = true.
Proof.
  intros Hs. induction t as [|a t IH]; [done|].
  change (String a t +:+ s) with (String a (t +:+ s)).
  cbn [str_contains]. rewrite IH. apply orb_true_r.
Qed.

Lemma str_contains_unlines needle line ls :
  line ∈ ls →
  String.prefix needle line = true →
  str_contains needle (unlines ls) = true.
Proof.
  intros Hin Hp. induction ls as [|l ls IH]; [by apply elem_of_nil in Hin|].
  unfold unlines. rewrite foldr_cons. fold (unlines ls).
  apply elem_of_cons in Hin as [<-|Hin].
  - by apply str_contains_prefix, prefix_app.
  - apply str_contains_app_r, str_contains_app_r, IH, Hin.
Qed.

(** Every entry of the removal list has its line in the enumeration. *)
Lemma every_target_is_listed endpoint :
  endpoint ∈ unused_endpoints →
  ∃ line, line ∈ report_listing
          ∧ String.prefix ("- `" +:+ endpoint +:+ "` (") line = true.
Proof.
  assert (Forall (λ e, Exists (λ line,
                    String.prefix ("- `" +:+ e +:+ "` (") line = true)
                    report_listing) unused_endpoints) as Hall
    by (apply (bool_decide_unpack _); by vm_compute).
  rewrite Forall_forall in Hall. intros Hin.
  specialize (Hall endpoint Hin). apply Exists_exists in Hall. exact Hall.
Qed.

(** ** Claims about the report *)




(** C6.  Two runs whose [try] completes with the same [removed_count], the
    same reading of the clock and the same backup path leave the same
    report, whatever their documents: it is the template filled with these
    values and the length of the list, and it has the line of every entry
    of the removal list. *)
Theorem report_does_not_depend_on_document E1 E2 fs1 fs2 fs1' fs2' n :
  try_body E1 fs1 = (fs1', Ok n) →
  try_body E2 fs2 = (fs2', Ok n) →
  now_report E1 = now_report E2 →
  backup_file E1 = backup_file E2 →
  ∃ content,
    fs1' !! report_file = Some content
    ∧ fs2' !! report_file = Some content
    ∧ content
      = report_content (now_report E1) unused_endpoints n (backup_file E1)
    ∧ ∀ endpoint, endpoint ∈ unused_endpoints →
        str_contains ("- `" +:+ endpoint +:+ "` (") content = true.
Proof.
  intros Hrun1 Hrun2 Hnow Hbackup.
  eexists. split_and!.
  - apply (try_body_Ok_report _ _ _ _ Hrun1).
  - rewrite Hnow, Hbackup. apply (try_body_Ok_report _ _ _ _ Hrun2).
  - done.
  - intros endpoint (line & Hline & Hprefix)%every_target_is_listed.
    unfold report_content.
    apply str_contains_unlines with line; [|done].
    rewrite !elem_of_app. auto.
Qed.

Lemma report_does_not_depend_on_document_witness :
  ∃ content,
    (try_body quiet_env sample_files).1 !! report_file = Some content
    ∧ (try_body other_env sample_files).1 !! report_file = Some content.
Proof.
  assert (try_body quiet_env sample_files
          = ((try_body quiet_env sample_files).1, Ok 2)) as Hrun1
    by (by apply run_with_outcome; vm_compute).
  assert (try_body other_env sample_files
          = ((try_body other_env sample_files).1, Ok 2)) as Hrun2
    by (by apply run_with_outcome; vm_compute).
  destruct (report_does_not_depend_on_document quiet_env other_env _ _ _ _ 2
              Hrun1 Hrun2 eq_refl eq_refl)
    as (content & H1 & H2 & _).
  exists content. by split.
Defined.

(** * Further properties of the script *)

(** ** The remover, lines 79-92 *)

Lemma remove_loop_count_bounds root es : ∀ h n h' n',
  remove_loop root es h n = Ok (h', n') →
  n ≤ n' ∧ n' ≤ n + length es.
Proof.
  induction es as [|e es IH]; intros h n h' n'.
  - rewrite remove_loop_nil. intros [= <- <-]. simpl. lia.
  - rewrite remove_loop_cons.
    destruct (py_getitem h root "paths") as [pv|]; [|done]. simpl.
    destruct (py_contains h e pv) as [[]|]; [| |done]; simpl.
    + destruct (py_delitem h pv e) as [h0|]; [|done]. simpl.
      intros Hrest%IH. lia.
    + intros Hrest%IH. lia.
Qed.

Lemma remove_endpoints_count_bound es h root h1 n :
  remove_endpoints es h root = Ok (h1, n) → n ≤ length es.
Proof.
  unfold remove_endpoints.
  destruct (py_contains h "paths" root) as [[]|]; simpl; [| |done].
  - destruct (py_getitem h root "paths") as [pv|]; [|done]. simpl.
    destruct (py_len h pv); [|done]. simpl.
    destruct (remove_loop root es h 0) as [[h' n']|] eqn:Hloop; [|done].
    simpl.
    destruct (py_getitem h' root "paths") as [pv'|]; [|done]. simpl.
    destruct (py_len h' pv'); [|done]. simpl.
    intros [= <- <-]. by apply remove_loop_count_bounds in Hloop as [_ ?].
  - intros [= <- <-]. lia.
Qed.

(** X1.  Whatever the document, the count the remover returns is at most
    the length of the removal list: the report's "Successfully removed"
    never exceeds its "Total endpoints targeted for removal". *)
Theorem removed_count_at_most_targeted h swagger_data h1 n :
  remove_endpoints unused_endpoints h swagger_data = Ok (h1, n) →
  n ≤ length unused_endpoints.
Proof. apply remove_endpoints_count_bound. Qed.

Lemma removed_count_at_most_targeted_witness :
  ∃ h1 n, remove_endpoints unused_endpoints sample_heap (VRef 1) = Ok (h1, n)
          ∧ n ≤ length unused_endpoints.
Proof.
  destruct (remove_endpoints unused_endpoints sample_heap (VRef 1))
    as [[h1 n]|] eqn:Hrun; [|by vm_compute in Hrun].
  exists h1, n. split; [done|].
  exact (removed_count_at_most_targeted _ _ _ _ Hrun).
Defined.

Lemma no_hits_remove_all es (pd : dict) :
  filter (λ e, KStr e ∈ dict_keys pd) es = [] → dict_remove_all es pd = pd.
Proof.
  intros Hnone. apply dict_remove_all_none. intros e He Hin.
  assert (e ∈ filter (λ e, KStr e ∈ dict_keys pd) es) as Hf
    by (by apply list_elem_of_filter).
  rewrite Hnone in Hf. by apply elem_of_nil in Hf.
Qed.

Lemma remove_all_fixed_no_hits es (pd : dict) :
  dict_remove_all es pd = pd → filter (λ e, KStr e ∈ dict_keys pd) es = [].
Proof.
  intros Hfix. rewrite <- Hfix. by apply no_hits_after_removal.
Qed.

Lemma remove_endpoints_zero_iff es h root h1 n :
  "paths" ∉ es → NoDup es →
  remove_endpoints es h root = Ok (h1, n) →
  n = 0 ↔ h1 = h.
Proof.
  intros Hes Hnodup Hrun.
  destruct (remove_endpoints_Ok_inv _ _ _ _ _ Hes Hnodup Hrun)
    as [[-> ->]|(p & pd & Hat & ->)]; [done|].
  rewrite (remove_endpoints_dict _ _ _ _ _ Hat Hes Hnodup) in Hrun.
  injection Hrun as <-. destruct Hat as [_ Hp]. split.
  - intros Hzero%length_zero_iff_nil.
    rewrite no_hits_remove_all by done. by apply insert_id.
  - intros Hsame. apply length_zero_iff_nil, remove_all_fixed_no_hits.
    assert (<[p := ODict (dict_remove_all es pd)]> h !! p = h !! p) as Hlk
      by (by rewrite Hsame).
    rewrite lookup_insert_eq, Hp in Hlk. by injection Hlk.
Qed.

(** X2.  The remover returns a count of zero exactly when it leaves the
    store of the document as it was. *)
Theorem zero_removed_iff_document_unchanged h swagger_data h1 n :
  remove_endpoints unused_endpoints h swagger_data = Ok (h1, n) →
  n = 0 ↔ h1 = h.
Proof.
  apply remove_endpoints_zero_iff;
    [apply paths_not_unused|apply unused_endpoints_NoDup].
Qed.

Lemma zero_removed_iff_document_unchanged_witness :
  ∃ h1 n, remove_endpoints unused_endpoints sample_heap (VRef 1) = Ok (h1, n)
          ∧ n ≠ 0 ∧ h1 ≠ sample_heap.
Proof.
  destruct (remove_endpoints unused_endpoints sample_heap (VRef 1))
    as [[h1 n]|] eqn:Hrun; [|by vm_compute in Hrun].
  exists h1, n. split; [done|].
  pose proof (zero_removed_iff_document_unchanged _ _ _ _ Hrun) as Hiff.
  assert (n ≠ 0) as Hn by (vm_compute in Hrun; by injection Hrun as _ <-).
  split; [done|]. intros Heq. by apply Hn, Hiff.
Defined.

Lemma dict_remove_all_targets (pd : dict) :
  dict_remove_all unused_endpoints pd = filter (λ kv, kv.1 ∉ targets) pd.
Proof.
  unfold dict_remove_all. apply list_filter_iff. intros kv.
  by rewrite elem_of_targets.
Qed.

(** X3.  On a [paths] mapping the remover leaves exactly the entries whose
    key is not on the removal list, each with the payload it had and in
    the order they had: nothing is added, changed or reordered. *)
Theorem remaining_paths_keep_order_and_payload h swagger_data p pd :
  paths_at h swagger_data p pd →
  ∃ h1 n,
    remove_endpoints unused_endpoints h swagger_data = Ok (h1, n)
    ∧ paths_at h1 swagger_data p (filter (λ kv, kv.1 ∉ targets) pd)
    ∧ filter (λ kv, kv.1 ∉ targets) pd `sublist_of` pd.
Proof.
  intros Hat. eexists _, _. split_and!.
  - apply (remove_endpoints_dict _ _ _ _ _ Hat paths_not_unused
             unused_endpoints_NoDup).
  - rewrite <- dict_remove_all_targets.
    apply paths_at_remove_all_of; [apply paths_not_unused|done].
  - apply sublist_filter.
Qed.

Lemma remaining_paths_keep_order_and_payload_witness :
  ∃ h1 n,
    remove_endpoints unused_endpoints sample_heap (VRef 1) = Ok (h1, n)
    ∧ paths_at h1 (VRef 1) 2 (filter (λ kv, kv.1 ∉ targets) sample_paths)
    ∧ filter (λ kv, kv.1 ∉ targets) sample_paths `sublist_of` sample_paths.
Proof.
  apply (remaining_paths_keep_order_and_payload sample_heap (VRef 1) 2
           sample_paths).
  split; reflexivity.
Defined.

(** X4.  On a [paths] mapping (a Python [dict], whose keys are distinct) the
    sizes printed at line 92 add up: the number of entries after the loop
    plus the number removed is the number of entries before. *)
Theorem counts_add_up h swagger_data p pd :
  paths_at h swagger_data p pd →
  NoDup (dict_keys pd) →
  ∃ h1 n pd1,
    remove_endpoints unused_endpoints h swagger_data = Ok (h1, n)
    ∧ paths_at h1 swagger_data p pd1
    ∧ length pd1 + n = length pd.
Proof.
  intros Hat Hkeys. eexists _, _, _. split_and!.
  - apply (remove_endpoints_dict _ _ _ _ _ Hat paths_not_unused
             unused_endpoints_NoDup).
  - apply paths_at_remove_all_of; [apply paths_not_unused|done].
  - rewrite removed_count_size.
    assert (∀ d : dict, NoDup (dict_keys d) → length d = size (dict_key_set d))
      as Hsize.
    { intros d Hd. unfold dict_key_set. rewrite size_list_to_set by done.
      unfold dict_keys. by rewrite length_fmap. }
    rewrite (Hsize pd Hkeys), Hsize.
    + rewrite dict_key_set_remove_all, size_difference_alt.
      pose proof (subseteq_size (dict_key_set pd ∩ targets) (dict_key_set pd)
                    (intersection_subseteq_l _ _)). lia.
    + rewrite dict_keys_remove_all. by apply NoDup_filter.
Qed.

Lemma counts_add_up_witness :
  ∃ h1 n pd1,
    remove_endpoints unused_endpoints sample_heap (VRef 1) = Ok (h1, n)
    ∧ paths_at h1 (VRef 1) 2 pd1
    ∧ length pd1 + n = length sample_paths.
Proof.
  apply (counts_add_up sample_heap (VRef 1) 2 sample_paths).
  - split; reflexivity.
  - apply (bool_decide_unpack _). by vm_compute.
Defined.

(** ** A [paths] that is not a mapping *)

Lemma py_contains_not_dict h e pv len :
  py_len h pv = Ok len → ∃ b, py_contains h e pv = Ok b.
Proof.
  destruct pv as [| | |s| |p]; try done; simpl; [by eauto|].
  destruct (h !! p) as [[d|xs]|]; [by eauto..|done].
Qed.

Lemma remove_loop_no_hit root pv es : ∀ h n,
  py_getitem h root "paths" = Ok pv →
  Forall (λ e, py_contains h e pv = Ok false) es →
  remove_loop root es h n = Ok (h, n).
Proof.
  induction es as [|e es IH]; intros h n Hget Hall; [done|].
  apply Forall_cons in Hall as [He Hall].
  rewrite remove_loop_cons, Hget. simpl. rewrite He. simpl. by apply IH.
Qed.

Lemma remove_loop_hit_not_dict root pv es : ∀ h n len,
  py_getitem h root "paths" = Ok pv →
  (∀ p pd, pv = VRef p → h !! p ≠ Some (ODict pd)) →
  py_len h pv = Ok len →
  Exists (λ e, py_contains h e pv = Ok true) es →
  remove_loop root es h n = Raise TypeError.
Proof.
  induction es as [|e es IH]; intros h n len Hget Hnd Hlen Hex.
  - by apply Exists_nil in Hex.
  - rewrite remove_loop_cons, Hget. simpl.
    destruct (py_contains_not_dict h e pv len Hlen) as [b Hb].
    rewrite Hb. simpl. destruct b.
    + destruct pv as [| | | | |p]; try done. simpl.
      destruct (h !! p) as [[pd|xs]|] eqn:Hp; try done.
      by destruct (Hnd p pd).
    + apply Exists_cons in Hex as [Hhit|Hex]; [congruence|].
      by apply IH with len.
Qed.

Lemma remove_endpoints_not_dict es h root pv len :
  py_getitem h root "paths" = Ok pv →
  (∀ p pd, pv = VRef p → h !! p ≠ Some (ODict pd)) →
  py_len h pv = Ok len →
  (Forall (λ e, py_contains h e pv = Ok false) es →
   remove_endpoints es h root = Ok (h, 0))
  ∧ (Exists (λ e, py_contains h e pv = Ok true) es →
     remove_endpoints es h root = Raise TypeError).
Proof.
  intros Hget Hnd Hlen.
  assert (py_contains h "paths" root = Ok true) as Hin.
  { destruct root as [| | | | |r]; try done. simpl in *.
    destruct (h !! r) as [[rd|]|]; try done.
    destruct (dict_lookup (KStr "paths") rd) eqn:Hlk; [|done].
    f_equal. apply bool_decide_eq_true_2, dict_lookup_is_Some.
    by rewrite Hlk. }
  unfold remove_endpoints. rewrite Hin. simpl. rewrite Hget. simpl.
  rewrite Hlen. simpl. split.
  - intros Hall. rewrite (remove_loop_no_hit _ pv) by done. simpl.
    rewrite Hget. simpl. by rewrite Hlen.
  - intros Hex. by rewrite (remove_loop_hit_not_dict _ pv _ _ _ len).
Qed.

(** X5.  A [paths] that is a sequence or a string instead of a mapping is
    not rejected as such: when no entry of the removal list occurs in it
    (as an element, or as a substring) the remover returns a count of zero
    and leaves the document as it is; as soon as one occurs, [del] raises
    [TypeError]. *)
Theorem paths_that_is_no_mapping h swagger_data pv len :
  py_getitem h swagger_data "paths" = Ok pv →
  (∀ p pd, pv = VRef p → h !! p ≠ Some (ODict pd)) →
  py_len h pv = Ok len →
  (Forall (λ e, py_contains h e pv = Ok false) unused_endpoints →
   remove_endpoints unused_endpoints h swagger_data = Ok (h, 0))
  ∧ (Exists (λ e, py_contains h e pv = Ok true) unused_endpoints →
     remove_endpoints unused_endpoints h swagger_data = Raise TypeError).
Proof. apply remove_endpoints_not_dict. Qed.

Lemma paths_that_is_no_mapping_witness :
  remove_endpoints unused_endpoints list_paths_heap (VRef 1)
  = Ok (list_paths_heap, 0)
  ∧ remove_endpoints unused_endpoints list_paths_hit_heap (VRef 1)
    = Raise TypeError.
Proof.
  split.
  - refine (proj1 (paths_that_is_no_mapping list_paths_heap (VRef 1)
                     (VRef 2) 2 eq_refl _ eq_refl) _).
    + intros p pd [= <-]. by vm_compute.
    + apply (bool_decide_unpack _). by vm_compute.
  - refine (proj2 (paths_that_is_no_mapping list_paths_hit_heap (VRef 1)
                     (VRef 2) 2 eq_refl _ eq_refl) _).
    + intros p pd [= <-]. by vm_compute.
    + apply (bool_decide_unpack _). by vm_compute.
Defined.

(** ** What a run of lines 79-99 needs *)

Lemma remove_endpoints_Ok_len es h root h1 n rd v :
  remove_endpoints es h root = Ok (h1, n) →
  dict_of h root = Some rd →
  dict_lookup (KStr "paths") rd = Some v →
  ∃ len, py_len h v = Ok len.
Proof.
  intros Hrun (r & -> & Hr)%dict_of_Some Hv. unfold remove_endpoints in Hrun.
  simpl in Hrun. rewrite Hr in Hrun.
  rewrite bool_decide_eq_true_2 in Hrun
    by (apply dict_lookup_is_Some; by rewrite Hv).
  simpl in Hrun. rewrite Hv in Hrun. simpl in Hrun.
  destruct (py_len h v) as [len|]; [by eauto|done].
Qed.

(** X6.  Lines 79-99 return only on a document whose top level is a
    mapping, whose [paths], if present, has a length (a mapping, a sequence
    or a string) and whose [info], if present, is a mapping; on any other
    document they raise. *)
Theorem cleaning_returns_only_on_shaped_documents
    py_repr h swagger_data today h2 n :
  clean_document py_repr h swagger_data today = Ok (h2, n) →
  ∃ rd,
    dict_of h swagger_data = Some rd
    ∧ (∀ v, dict_lookup (KStr "paths") rd = Some v →
            ∃ len, py_len h v = Ok len)
    ∧ (∀ v, dict_lookup (KStr "info") rd = Some v → is_Some (dict_of h v)).
Proof.
  intros (h1 & Hrem & Hann)%clean_document_Ok.
  destruct (annotate_Ok_inv _ _ _ _ _ Hann) as (r & rd1 & -> & Hr1 & Hinfo).
  destruct (remove_endpoints_Ok_inv _ _ _ _ _ paths_not_unused
              unused_endpoints_NoDup Hrem)
    as [[-> _]|(p & pd & Hat & ->)].
  - exists rd1. split_and!.
    + simpl. by rewrite Hr1.
    + intros v Hv. eapply remove_endpoints_Ok_len; [done| |done].
      simpl. by rewrite Hr1.
    + intros v Hv. destruct Hinfo as [Hnone|(i & idd & Hi & Hidd)];
        [congruence|].
      rewrite Hv in Hi. injection Hi as ->. simpl. rewrite Hidd. by eexists.
  - destruct (paths_at_root _ _ _ _ Hat) as (r' & rd & [= <-] & Hr & Hp).
    pose proof Hat as [_ Hpd].
    destruct (root_lookup_after_removal unused_endpoints h r rd p pd
                (KStr "info") Hr Hpd) as (rd' & Hr' & Hlk).
    { intros (e & [= <-] & He)%list_elem_of_fmap.
      apply (unused_endpoints_not_reserved "info"); [|done].
      apply list_elem_of_further, list_elem_of_here. }
    rewrite Hr1 in Hr'. injection Hr' as <-.
    exists rd. split_and!.
    + simpl. by rewrite Hr.
    + intros v Hv. eapply remove_endpoints_Ok_len; [done| |done].
      simpl. by rewrite Hr.
    + intros v Hv. rewrite <- Hlk in Hv.
      destruct Hinfo as [Hnone|(i & idd & Hi & Hidd)]; [congruence|].
      rewrite Hv in Hi. injection Hi as ->. simpl.
      destruct (decide (p = i)) as [->|Hne].
      * rewrite Hpd. by eexists.
      * rewrite lookup_insert_ne in Hidd by done. rewrite Hidd. by eexists.
Qed.

Lemma cleaning_returns_only_on_shaped_documents_witness :
  ∃ rd,
    dict_of sample_heap (VRef 1) = Some rd
    ∧ (∀ v, dict_lookup (KStr "paths") rd = Some v →
            ∃ len, py_len sample_heap v = Ok len)
    ∧ (∀ v, dict_lookup (KStr "info") rd = Some v →
            is_Some (dict_of sample_heap v)).
Proof.
  destruct (clean_document no_repr sample_heap (VRef 1) "2025-01-15")
    as [[h2 n]|] eqn:Hrun; [|by vm_compute in Hrun].
  exact (cleaning_returns_only_on_shaped_documents _ _ _ _ _ _ Hrun).
Defined.

(** ** The annotator, lines 95-99 *)

Lemma info_description_after_insert (h : heap) r rd i idd v :
  h !! r = Some (ODict rd) →
  dict_lookup (KStr "info") rd = Some (VRef i) →
  h !! i = Some (ODict idd) →
  ∃ rd' idd',
    <[i := ODict (dict_insert (KStr "description") v idd)]> h !! r
    = Some (ODict rd')
    ∧ dict_lookup (KStr "info") rd' = Some (VRef i)
    ∧ <[i := ODict (dict_insert (KStr "description") v idd)]> h !! i
      = Some (ODict idd')
    ∧ dict_lookup (KStr "description") idd' = Some v.
Proof.
  intros Hr Hinfo Hi.
  destruct (decide (i = r)) as [->|Hne].
  - simplify_eq. eexists _, _. rewrite !lookup_insert_eq.
    split_and!; [done| |done|apply dict_lookup_insert_eq].
    by rewrite dict_lookup_insert_ne.
  - eexists _, _. rewrite lookup_insert_ne, lookup_insert_eq by done.
    split_and!; [done..|apply dict_lookup_insert_eq].
Qed.

(** The document the annotator leaves: [info] is a dictionary and its
    [description] is what line 98 read, as an f-string renders it, followed
    by the note. *)
Lemma annotate_shape py_repr h root today h2 :
  annotate py_repr h root today = Ok h2 →
  ∃ r rd2 i idd2,
    root = VRef r ∧ h2 !! r = Some (ODict rd2)
    ∧ dict_lookup (KStr "info") rd2 = Some (VRef i)
    ∧ h2 !! i = Some (ODict idd2)
    ∧ dict_lookup (KStr "description") idd2
      = Some (VStr (py_format py_repr h (original_description h root)
                    +:+ cleanup_note today)).
Proof.
  intros Hrun.
  destruct (annotate_Ok_inv _ _ _ _ _ Hrun)
    as (r & rd & -> & Hr & [Hinfo|(i & idd & Hinfo & Hi)]).
  - rewrite (annotate_info_absent _ _ _ _ _ Hr Hinfo) in Hrun.
    injection Hrun as <-.
    assert (fresh (dom h) ≠ r) as Hfresh.
    { intros Heq. apply (is_fresh (dom h)). rewrite Heq.
      apply elem_of_dom. by rewrite Hr. }
    exists r, (dict_insert (KStr "info") (VRef (fresh (dom h))) rd),
      (fresh (dom h)), [(KStr "description", VStr (cleanup_note today))].
    unfold original_description. simpl. rewrite Hr, Hinfo. simpl.
    rewrite lookup_insert_ne, !lookup_insert_eq by done.
    by rewrite dict_lookup_insert_eq.
  - rewrite (annotate_info_present _ _ _ _ _ _ _ Hr Hinfo Hi) in Hrun.
    injection Hrun as <-.
    destruct (info_description_after_insert h r rd i idd
                (new_description py_repr h
                   (dict_lookup (KStr "description") idd) today) Hr Hinfo Hi)
      as (rd' & idd' & Hr' & Hinfo' & Hi' & Hdesc).
    exists r, rd', i, idd'. split_and!; [done..|].
    rewrite Hdesc. unfold new_description, original_description. simpl.
    rewrite Hr, Hinfo. simpl. rewrite Hi.
    by destruct (dict_lookup (KStr "description") idd).
Qed.

(** X7.  Whatever value [description] held, the annotator leaves a string:
    the old value as an f-string renders it (the text itself for a string,
    [None] for a null, the digits for a number) followed by the note.  A
    description that was not text is thus turned into text. *)
Theorem description_becomes_rendered_text py_repr h swagger_data today h2 :
  annotate py_repr h swagger_data today = Ok h2 →
  ∃ info,
    py_getitem h2 swagger_data "info" = Ok info
    ∧ py_getitem h2 info "description"
      = Ok (VStr (py_format py_repr h (original_description h swagger_data)
                  +:+ cleanup_note today)).
Proof.
  intros (r & rd2 & i & idd2 & -> & Hr & Hinfo & Hi & Hdesc)%annotate_shape.
  exists (VRef i). simpl. by rewrite Hr, Hinfo, Hi, Hdesc.
Qed.

Lemma description_becomes_rendered_text_witness :
  ∃ h2 info,
    annotate no_repr null_description_heap (VRef 1) "2025-01-15" = Ok h2
    ∧ py_getitem h2 (VRef 1) "info" = Ok info
    ∧ py_getitem h2 info "description"
      = Ok (VStr ("None" +:+ cleanup_note "2025-01-15")).
Proof.
  destruct (annotate no_repr null_description_heap (VRef 1) "2025-01-15")
    as [h2|] eqn:Hrun; [|by vm_compute in Hrun].
  destruct (description_becomes_rendered_text _ _ _ _ _ Hrun)
    as (info & Hinfo & Hdesc).
  by exists h2, info.
Defined.

(** X8.  The annotator is not idempotent: run again on the document it
    left, it returns and appends a second note after the first, so
    repeated runs pile up notes in [info.description]. *)
Theorem notes_accumulate py_repr h swagger_data day1 day2 h2 :
  annotate py_repr h swagger_data day1 = Ok h2 →
  ∃ h3 info,
    annotate py_repr h2 swagger_data day2 = Ok h3
    ∧ py_getitem h3 swagger_data "info" = Ok info
    ∧ py_getitem h3 info "description"
      = Ok (VStr ((py_format py_repr h (original_description h swagger_data)
                   +:+ cleanup_note day1) +:+ cleanup_note day2)).
Proof.
  intros (r & rd2 & i & idd2 & -> & Hr & Hinfo & Hi & Hdesc)%annotate_shape.
  rewrite (annotate_info_present _ _ _ _ _ _ _ Hr Hinfo Hi).
  rewrite Hdesc. unfold new_description. simpl.
  match goal with |- context [dict_insert _ ?v _] =>
    destruct (info_description_after_insert h2 r rd2 i idd2 v Hr Hinfo Hi)
      as (rd' & idd' & Hr' & Hinfo' & Hi' & Hdesc')
  end.
  eexists _, (VRef i). split; [done|]. simpl.
  by rewrite Hr', Hinfo', Hi', Hdesc'.
Qed.

Lemma notes_accumulate_witness :
  ∃ h2 h3 info,
    annotate no_repr sample_heap (VRef 1) "2025-01-15" = Ok h2
    ∧ annotate no_repr h2 (VRef 1) "2025-01-16" = Ok h3
    ∧ py_getitem h3 (VRef 1) "info" = Ok info
    ∧ py_getitem h3 info "description"
      = Ok (VStr (("Accounting" +:+ cleanup_note "2025-01-15")
                  +:+ cleanup_note "2025-01-16")).
Proof.
  destruct (annotate no_repr sample_heap (VRef 1) "2025-01-15")
    as [h2|] eqn:Hrun; [|by vm_compute in Hrun].
  destruct (notes_accumulate no_repr _ _ _ "2025-01-16" _ Hrun)
    as (h3 & info & Hrun2 & Hinfo & Hdesc).
  by exists h2, h3, info.
Defined.

(** ** The run as a whole, lines 13-118 *)

Lemma only_writes_path_exists W path : only_writes W (path_exists path).
Proof. by intros fs fs' r [= <- _]. Qed.

Lemma only_writes_copy2 W E c src dst :
  dst ∈ W → only_writes W (copy2 E c src dst).
Proof.
  intros Hdst. unfold copy2.
  apply only_writes_bind; [apply only_writes_read_file|]. intros content.
  by apply only_writes_write_or_fail.
Qed.

Lemma only_writes_try_except {A} W (body : io A) handler :
  only_writes W body → (∀ e, only_writes W (handler e)) →
  only_writes W (try_except body handler).
Proof.
  intros Hbody Hhandler fs fs' r. unfold try_except.
  destruct (body fs) as [fs1 [a|e]] eqn:Hrun.
  - intros [= <- <-]. by apply (Hbody _ _ _ Hrun).
  - intros Hh path Hpath. rewrite (Hhandler e _ _ _ Hh) by done.
    by apply (Hbody _ _ _ Hrun).
Qed.

(** The handler writes to the source only. *)
Lemma only_writes_handler W E e :
  swagger_file ∈ W → only_writes W (restore_and_reraise E e).
Proof.
  intros Hin. unfold restore_and_reraise.
  apply only_writes_bind; [apply only_writes_print|]. intros _.
  apply only_writes_bind; [apply only_writes_path_exists|]. intros present.
  apply only_writes_bind; [|intros _; apply only_writes_raise].
  destruct present; [|apply only_writes_ret].
  apply only_writes_bind; [by apply only_writes_copy2|]. intros _.
  apply only_writes_print.
Qed.

(** The [try] with its handler writes to the source and to the report
    only. *)
Lemma only_writes_guarded E :
  only_writes [swagger_file; report_file]
    (try_except (try_body E) (restore_and_reraise E)).
Proof.
  apply only_writes_try_except; [apply only_writes_try_body|].
  intros e. apply only_writes_handler, list_elem_of_here.
Qed.

Lemma only_writes_run E :
  only_writes [swagger_file; backup_file E; report_file]
    (remove_unused_endpoints E).
Proof.
  unfold remove_unused_endpoints.
  apply only_writes_bind.
  { apply only_writes_copy2, list_elem_of_further, list_elem_of_here. }
  intros _. apply only_writes_bind; [|intros _; apply only_writes_ret].
  eapply only_writes_weaken; [|apply only_writes_guarded].
  apply list_subseteq_skip, list_subseteq_cons, reflexivity.
Qed.

(** X9.  Once the backup copy is made, the backup file holds the text the
    source had before the run, and it still does when the run ends, however
    it ends: completed, failed and restored, or failed with a failing
    restore. *)
Theorem backup_holds_original_text E fs text :
  io_error E BackupCopy = None →
  fs !! swagger_file = Some text →
  (remove_unused_endpoints E fs).1 !! backup_file E = Some text.
Proof.
  intros Hio Hsrc.
  pose proof (copy2_run E BackupCopy swagger_file (backup_file E) fs text
                Hio Hsrc) as Hcopy.
  unfold remove_unused_endpoints. rewrite (io_bind_Ok _ _ _ _ _ Hcopy).
  destruct (try_except (try_body E) (restore_and_reraise E)
              (<[backup_file E := text]> fs)) as [fs1 r] eqn:Hguard.
  assert (fs1 !! backup_file E = Some text) as Hbackup.
  { rewrite (only_writes_guarded E _ _ _ Hguard).
    - apply lookup_insert_eq.
    - intros [Heq|[Heq|[]%elem_of_nil]%elem_of_cons]%elem_of_cons.
      + by apply (backup_file_not_source E).
      + by apply (backup_file_not_report E). }
  destruct r as [n|e].
  - by rewrite (io_bind_Ok _ _ _ _ _ Hguard).
  - by rewrite (io_bind_Raise _ _ _ _ _ Hguard).
Qed.

Lemma backup_holds_original_text_witness :
  (remove_unused_endpoints quiet_env sample_files).1 !! backup_file quiet_env
  = Some "swagger: original"
  ∧ (remove_unused_endpoints disk_full_env sample_files).1
      !! backup_file disk_full_env
    = Some "swagger: original".
Proof.
  split.
  - apply (backup_holds_original_text quiet_env sample_files); reflexivity.
  - apply (backup_holds_original_text disk_full_env sample_files);
      reflexivity.
Defined.

(** A copy that raises left its destination alone, or emptied it and
    wrote the part of the content that reached it. *)
Lemma copy2_Raise_inv E c src dst fs fs' e :
  copy2 E c src dst fs = (fs', Raise e) →
  fs' = fs
  ∨ ∃ content n,
      fs !! src = Some content
      ∧ io_error E c = Some e
      ∧ reached E c = Some n
      ∧ fs' = <[dst := str_take n content]> fs.
Proof.
  unfold copy2.
  intros [(e0 & Hread & _)|(fa & content & Hread & Hw)]%io_bind_inv.
  - left. unfold read_file in Hread.
    by destruct (fs !! src); injection Hread.
  - unfold read_file in Hread.
    destruct (fs !! src) as [c0|] eqn:Hsrc; [|done].
    injection Hread as <- <-.
    destruct (io_error E c) as [e'|] eqn:Hc.
    + rewrite (write_or_fail_fault _ _ _ _ _ _ Hc) in Hw.
      destruct (reached E c) as [n|] eqn:Hn; injection Hw as <- <-;
        [|by left].
      right. by exists c0, n.
    + by rewrite (write_or_fail_run _ _ _ _ _ Hc) in Hw.
Qed.

(** X10.  When the backup copy raises (the source is missing, or the copy
    fails before or while it writes), the run raises that exception at
    once: nothing is parsed, no restore is attempted, and no file other
    than the backup is changed.  The backup is as it was when the copy had
    not opened it, and holds the part of the source text that reached it
    otherwise. *)
Theorem backup_failure_stops_the_run E fs fs' e :
  copy2 E BackupCopy swagger_file (backup_file E) fs = (fs', Raise e) →
  remove_unused_endpoints E fs = (fs', Raise e)
  ∧ (∀ path, path ≠ backup_file E → fs' !! path = fs !! path)
  ∧ (fs' = fs
     ∨ ∃ text n,
         fs !! swagger_file = Some text
         ∧ io_error E BackupCopy = Some e
         ∧ reached E BackupCopy = Some n
         ∧ fs' = <[backup_file E := str_take n text]> fs).
Proof.
  intros Hcopy. split_and!.
  - unfold remove_unused_endpoints. by apply io_bind_Raise.
  - intros path Hpath.
    apply (only_writes_copy2 [backup_file E] _ _ _ _ (list_elem_of_here _ _)
             _ _ _ Hcopy).
    by intros ->%list_elem_of_singleton.
  - by apply copy2_Raise_inv in Hcopy.
Qed.

Lemma backup_failure_stops_the_run_witness :
  remove_unused_endpoints backup_cut_env sample_files
  = (<[backup_file backup_cut_env := "swagger:"]> sample_files,
     Raise (OSError 27))
  ∧ remove_unused_endpoints quiet_env ∅ = (∅, Raise FileNotFoundError).
Proof.
  split.
  - apply (backup_failure_stops_the_run backup_cut_env sample_files).
    by apply (copy2_fault backup_cut_env BackupCopy _ _ _ "swagger: original").
  - by apply (backup_failure_stops_the_run quiet_env ∅ ∅ FileNotFoundError).
Defined.

(** X11.  However it ends, a run changes no file other than the source,
    the backup and the report. *)
Theorem run_touches_three_files_only E fs fs' r path :
  remove_unused_endpoints E fs = (fs', r) →
  path ≠ swagger_file → path ≠ backup_file E → path ≠ report_file →
  fs' !! path = fs !! path.
Proof.
  intros Hrun Hs Hb Hr. apply (only_writes_run E _ _ _ Hrun).
  rewrite !elem_of_cons, elem_of_nil. tauto.
Qed.

Lemma run_touches_three_files_only_witness :
  (remove_unused_endpoints quiet_env
     (<["README.md" := "readme"]> sample_files)).1 !! "README.md"
  = Some "readme".
Proof.
  rewrite (run_touches_three_files_only quiet_env
             (<["README.md" := "readme"]> sample_files) _ _ "README.md"
             (surjective_pairing _)); [by vm_compute|..];
    by apply (bool_decide_unpack _); vm_compute.
Defined.

Lemma os_call_inv E c fs fs' r :
  os_call E c fs = (fs', r) → fs' = fs.
Proof.
  unfold os_call. by destruct (io_error E c); intros [= <- _].
Qed.

(** When lines 73-107 complete: what was read, parsed, done to the
    document and written. *)
Lemma clean_swagger_file_Ok_inv E fs fs1 n :
  clean_swagger_file E fs = (fs1, Ok n) →
  ∃ text D h out,
    fs !! swagger_file = Some text
    ∧ safe_load E text = Ok D
    ∧ clean_document (container_repr E) (doc_heap D) (doc_root D) (now_note E)
      = Ok (h, n)
    ∧ dump E (Document h (doc_root D)) = (out, None)
    ∧ fs1 = <[swagger_file := out]> fs.
Proof.
  unfold clean_swagger_file.
  intros [(? & _ & [=])|(fa & [] & Ha & Hrun)]%io_bind_inv.
  apply os_call_inv in Ha as ->.
  apply io_bind_inv in Hrun as [(? & _ & [=])|(fb & text & Hb & Hrun)].
  assert (fb = fs ∧ fs !! swagger_file = Some text) as [-> Htext].
  { unfold read_file in Hb.
    destruct (fs !! swagger_file); [|done]. by injection Hb as <- <-. }
  apply io_bind_inv in Hrun as [(? & _ & [=])|(fc & D & [= <- Hload] & Hrun)].
  apply io_bind_inv in Hrun
    as [(? & _ & [=])|(fd & [h1 k] & [= <- Hrem] & Hrun)].
  apply io_bind_inv in Hrun as [(? & _ & [=])|(fe & h2 & [= <- Hann] & Hrun)].
  apply io_bind_inv in Hrun as [(? & _ & [=])|(ff & [] & Hw & Hrun)].
  apply io_bind_inv in Hrun as [(? & _ & [=])|(fg & [] & Hp1 & Hrun)].
  apply io_bind_inv in Hrun as [(? & _ & [=])|(fh & [] & Hp2 & [= <- <-])].
  apply py_print_Ok_inv in Hp2 as [_ ->].
  apply py_print_Ok_inv in Hp1 as [_ ->].
  apply rewrite_source_Ok in Hw as (out & Hdump & ->).
  exists text, D, h2, out. split_and!; [done..| |done|done].
  apply clean_document_Ok. eauto.
Qed.

(** The handler never returns: a run that returns completed its [try]. *)
Lemma run_Ok_inv E fs fs' :
  remove_unused_endpoints E fs = (fs', Ok ()) →
  ∃ fs0 n,
    copy2 E BackupCopy swagger_file (backup_file E) fs = (fs0, Ok ())
    ∧ try_body E fs0 = (fs', Ok n).
Proof.
  unfold remove_unused_endpoints.
  intros [(? & _ & [=])|(fs0 & [] & Hcopy & Hrun)]%io_bind_inv.
  apply io_bind_inv in Hrun as [(? & _ & [=])|(fs1 & n & Htry & [= <-])].
  exists fs0. unfold try_except in Htry.
  destruct (try_body E fs0) as [fs2 [k|e]] eqn:Hbody.
  - injection Htry as <- <-. eauto.
  - exfalso. unfold restore_and_reraise in Htry.
    apply io_bind_inv in Htry as [(? & _ & [=])|(fa & [] & _ & Htry)].
    apply io_bind_inv in Htry as [(? & _ & [=])|(fb & present & _ & Htry)].
    by apply io_bind_inv in Htry as [(? & _ & [=])|(fc & [] & _ & [=])].
Qed.

(** X12.  A run that returns has done all of the following: the source
    text parsed, lines 79-99 returned on the document, [yaml.dump] wrote
    its text in full, and the files are those of before the run with the
    backup holding the old text, the source holding the dumped text and the
    report holding the template filled with the count of that very
    removal. *)
Theorem completed_run E fs fs' :
  remove_unused_endpoints E fs = (fs', Ok ()) →
  ∃ text D h n out,
    fs !! swagger_file = Some text
    ∧ safe_load E text = Ok D
    ∧ clean_document (container_repr E) (doc_heap D) (doc_root D) (now_note E)
      = Ok (h, n)
    ∧ dump E (Document h (doc_root D)) = (out, None)
    ∧ fs' = <[report_file :=
                report_content (now_report E) unused_endpoints n
                  (backup_file E)]>
              (<[swagger_file := out]> (<[backup_file E := text]> fs)).
Proof.
  intros (fs0 & n & Hcopy & Hbody)%run_Ok_inv.
  apply copy2_Ok_inv in Hcopy as (_ & text & Hsrc & ->).
  unfold try_body in Hbody.
  apply io_bind_inv in Hbody as [(? & _ & [=])|(fs1 & k & Hclean & Hbody)].
  apply io_bind_inv in Hbody as [(? & _ & [=])|(fs2 & [] & Hrep & [= <- <-])].
  apply generate_cleanup_report_Ok in Hrep as ->.
  apply clean_swagger_file_Ok_inv in Hclean
    as (text' & D & h & out & Htext & Hload & Hclean & Hdump & ->).
  rewrite lookup_insert_ne in Htext by apply backup_file_not_source.
  rewrite Hsrc in Htext. injection Htext as <-.
  by exists text, D, h, k, out.
Qed.

Lemma completed_run_witness :
  ∃ text D h n out,
    sample_files !! swagger_file = Some text
    ∧ safe_load quiet_env text = Ok D
    ∧ clean_document (container_repr quiet_env) (doc_heap D) (doc_root D)
        (now_note quiet_env) = Ok (h, n)
    ∧ dump quiet_env (Document h (doc_root D)) = (out, None)
    ∧ (remove_unused_endpoints quiet_env sample_files).1
      = <[report_file :=
            report_content (now_report quiet_env) unused_endpoints n
              (backup_file quiet_env)]>
          (<[swagger_file := out]>
             (<[backup_file quiet_env := text]> sample_files)).
Proof.
  apply (completed_run quiet_env sample_files).
  by apply run_with_outcome; vm_compute.
Defined.

Lemma clean_swagger_file_fails_early E fs text e :
  fs !! swagger_file = Some text →
  fails_before_rewrite E text e →
  clean_swagger_file E fs = (fs, Raise e).
Proof.
  intros Htext Hfail. unfold clean_swagger_file.
  destruct Hfail as [Hopen|[Hopen Hfail]].
  { apply io_bind_Raise. unfold os_call. by rewrite Hopen. }
  erewrite io_bind_Ok; last by (unfold os_call; rewrite Hopen).
  erewrite io_bind_Ok; last by (unfold read_file; rewrite Htext).
  destruct Hfail as [Hload|(D & Hload & Hclean)].
  { apply io_bind_Raise. unfold io_lift. by rewrite Hload. }
  erewrite io_bind_Ok; last by (unfold io_lift; rewrite Hload).
  unfold clean_document in Hclean.
  destruct (remove_endpoints unused_endpoints (doc_heap D) (doc_root D))
    as [[h1 n1]|e1]; simpl in Hclean.
  - erewrite io_bind_Ok; last done.
    apply io_bind_Raise. unfold io_lift.
    destruct (annotate (container_repr E) h1 (doc_root D) (now_note E));
      [done|]. simpl in Hclean. by injection Hclean as ->.
  - apply io_bind_Raise. unfold io_lift. by injection Hclean as ->.
Qed.

(** X13.  When the run fails before the source is opened for writing (it
    cannot be read, it does not parse, or lines 79-99 raise on it), the
    [try] has written no file.  The run raises; the backup holds the text
    of the source, and no file other than the backup and the source is
    changed.  The source holds its text as well, with one exception: the
    restoring copy raised after it had emptied the source, which then holds
    the part of the text that reached it, and the run raises the exception
    of the copy.  The exception of the failed step is the one raised when
    standard output takes both lines of the handler and the copy
    completes. *)
Theorem early_failure_changes_source_only_by_restore E fs text e :
  io_error E BackupCopy = None →
  fs !! swagger_file = Some text →
  fails_before_rewrite E text e →
  try_body E (<[backup_file E := text]> fs)
  = (<[backup_file E := text]> fs, Raise e)
  ∧ ∃ fs' e',
      remove_unused_endpoints E fs = (fs', Raise e')
      ∧ fs' !! backup_file E = Some text
      ∧ (∀ path, path ≠ backup_file E → path ≠ swagger_file →
                 fs' !! path = fs !! path)
      ∧ (fs' !! swagger_file = Some text
         ∨ ∃ n, stdout_encodes E Line113 = true
                ∧ io_error E RestoreCopy = Some e'
                ∧ reached E RestoreCopy = Some n
                ∧ fs' !! swagger_file = Some (str_take n text))
      ∧ (stdout_encodes E Line113 = true →
         io_error E RestoreCopy = None →
         stdout_encodes E Line117 = true →
         e' = e).
Proof.
  intros Hio Hsrc Hfail.
  pose proof (copy2_run E BackupCopy swagger_file (backup_file E) fs text
                Hio Hsrc) as Hcopy.
  set (fs0 := <[backup_file E := text]> fs) in *.
  assert (fs0 !! swagger_file = Some text) as Hsrc0.
  { unfold fs0. rewrite lookup_insert_ne; [done|apply backup_file_not_source]. }
  assert (fs0 !! backup_file E = Some text) as Hbackup
    by apply lookup_insert_eq.
  assert (try_body E fs0 = (fs0, Raise e)) as Hbody.
  { unfold try_body. apply io_bind_Raise.
    by apply clean_swagger_file_fails_early with text. }
  assert (∀ path, path ≠ backup_file E → fs0 !! path = fs !! path) as Hframe.
  { intros path Hpath. unfold fs0. by rewrite lookup_insert_ne. }
  split; [done|].
  destruct (stdout_encodes E Line113) eqn:H113; last first.
  { exists fs0, UnicodeEncodeError. split_and!.
    - apply (run_of_failed_body _ _ _ _ _ _ _ Hcopy Hbody).
      by apply handler_print_fails.
    - done.
    - intros path Hb _. by apply Hframe.
    - by left.
    - done. }
  destruct (io_error E RestoreCopy) as [e'|] eqn:Hrestore.
  - pose proof (run_of_failed_body _ _ _ _ _ _ _ Hcopy Hbody
                  (handler_restore_fails E e fs0 text e' Hbackup H113
                     Hrestore)) as Hrun.
    destruct (reached E RestoreCopy) as [n|] eqn:Hreached.
    + eexists _, e'. split_and!; [exact Hrun| | | |done].
      * rewrite lookup_insert_ne; [done|]. intros Heq.
        by apply (backup_file_not_source E).
      * intros path Hb Hs. rewrite lookup_insert_ne by done. by apply Hframe.
      * right. exists n. split_and!; [done..|]. apply lookup_insert_eq.
    + exists fs0, e'. split_and!; [exact Hrun|done| |by left|done].
      intros path Hb _. by apply Hframe.
  - eexists _, _. split_and!.
    + apply (run_of_failed_body _ _ _ _ _ _ _ Hcopy Hbody).
      by apply handler_restores.
    + rewrite lookup_insert_ne; [done|]. intros Heq.
      by apply (backup_file_not_source E).
    + intros path Hb Hs. rewrite lookup_insert_ne by done. by apply Hframe.
    + left. apply lookup_insert_eq.
    + intros _ _ H117. by rewrite H117.
Qed.

Lemma early_failure_changes_source_only_by_restore_witness :
  (∃ fs',
     remove_unused_endpoints parse_error_env sample_files
     = (fs', Raise YAMLError)
     ∧ fs' !! swagger_file = Some "swagger: original")
  ∧ (∃ fs',
       remove_unused_endpoints parse_error_cut_restore_env sample_files
       = (fs', Raise (OSError 27))
       ∧ fs' !! swagger_file = Some "swagger:").
Proof.
  split.
  - destruct (early_failure_changes_source_only_by_restore parse_error_env
                sample_files "swagger: original" YAMLError)
      as (_ & fs' & e' & Hrun & _ & _ & [Hsrc|(n & _ & [=] & _)] & He).
    + reflexivity.
    + reflexivity.
    + right. split; [reflexivity|]. left. reflexivity.
    + exists fs'. rewrite <- (He eq_refl eq_refl eq_refl). by split.
  - destruct (early_failure_changes_source_only_by_restore
                parse_error_cut_restore_env sample_files "swagger: original"
                YAMLError)
      as (_ & fs' & e' & Hrun & _ & _ & Hsrc & _).
    + reflexivity.
    + reflexivity.
    + right. split; [reflexivity|]. left. reflexivity.
    + assert (e' = OSError 27 ∧ fs' !! swagger_file = Some "swagger:")
        as [-> Hcut].
      { assert ((remove_unused_endpoints parse_error_cut_restore_env
                   sample_files).2 = Raise (OSError 27)) as Hout
          by (by vm_compute).
        assert ((remove_unused_endpoints parse_error_cut_restore_env
                   sample_files).1 !! swagger_file = Some "swagger:") as Hfs
          by (by vm_compute).
        rewrite Hrun in Hout, Hfs. simpl in Hout, Hfs.
        split; [congruence|done]. }
      by exists fs'.
Defined.

(** ** Lines 79-99 run on their own output *)

Lemma annotated_object_refl o : annotated_object o o.
Proof. destruct o; simpl; eauto. Qed.

Lemma annotated_object_insert k v (d : dict) :
  k = KStr "info" ∨ k = KStr "description" →
  annotated_object (ODict d) (ODict (dict_insert k v d)).
Proof.
  intros Hk. eexists. split; [done|]. intros k' Hi Hd.
  apply dict_lookup_insert_ne. by destruct Hk as [->| ->].
Qed.

(** The annotator leaves every object of the store as it was, up to the
    keys [info] and [description] of dictionaries. *)
Lemma annotate_objects py_repr h root today h2 :
  annotate py_repr h root today = Ok h2 →
  ∀ l o, h !! l = Some o → ∃ o', h2 !! l = Some o' ∧ annotated_object o o'.
Proof.
  intros Hrun l o Hl.
  destruct (annotate_Ok_inv _ _ _ _ _ Hrun)
    as (r & rd & -> & Hr & [Hinfo|(i & idd & Hinfo & Hi)]).
  - rewrite (annotate_info_absent _ _ _ _ _ Hr Hinfo) in Hrun.
    injection Hrun as <-.
    assert (fresh (dom h) ≠ l) as Hfresh.
    { intros Heq. apply (is_fresh (dom h)). rewrite Heq.
      apply elem_of_dom. by rewrite Hl. }
    rewrite lookup_insert_ne by done.
    destruct (decide (r = l)) as [->|Hne].
    + rewrite lookup_insert_eq. simplify_eq. eexists. split; [done|].
      apply annotated_object_insert. by left.
    + rewrite !lookup_insert_ne by done.
      eexists. split; [done|apply annotated_object_refl].
  - rewrite (annotate_info_present _ _ _ _ _ _ _ Hr Hinfo Hi) in Hrun.
    injection Hrun as <-.
    destruct (decide (i = l)) as [->|Hne].
    + rewrite lookup_insert_eq. simplify_eq. eexists. split; [done|].
      apply annotated_object_insert. by right.
    + rewrite lookup_insert_ne by done.
      eexists. split; [done|apply annotated_object_refl].
Qed.

(** What the remover reads is the same before and after the annotator. *)
Lemma reads_after_annotate (h h2 : heap) c k :
  (∀ l o, h !! l = Some o → ∃ o', h2 !! l = Some o' ∧ annotated_object o o') →
  (∀ l, c = VRef l → is_Some (h !! l)) →
  k ≠ "info" → k ≠ "description" →
  py_contains h2 k c = py_contains h k c
  ∧ py_getitem h2 c k = py_getitem h c k
  ∧ (∀ len, py_len h c = Ok len → ∃ len', py_len h2 c = Ok len').
Proof.
  intros Hobj Halloc Hi Hd.
  destruct c as [| | | | |l]; try (by eauto). simpl.
  destruct (Halloc l eq_refl) as [o Hl].
  destruct (Hobj l o Hl) as (o' & Hl2 & Hsim). rewrite Hl, Hl2.
  destruct o as [d|xs]; simpl in Hsim.
  - destruct Hsim as (d' & -> & Hlk).
    assert (dict_lookup (KStr k) d' = dict_lookup (KStr k) d) as Hk
      by (apply Hlk; congruence).
    rewrite Hk. split_and!; [|done|by eauto].
    f_equal. apply bool_decide_ext. by rewrite <- !dict_lookup_is_Some, Hk.
  - subst o'. by eauto.
Qed.

Lemma remove_loop_zero_inv root pv es : ∀ h n h',
  py_getitem h root "paths" = Ok pv →
  remove_loop root es h n = Ok (h', n) →
  Forall (λ e, py_contains h e pv = Ok false) es.
Proof.
  induction es as [|e es IH]; intros h n h' Hget; [by constructor|].
  rewrite remove_loop_cons, Hget. simpl.
  destruct (py_contains h e pv) as [[]|] eqn:He; [| |done]; simpl.
  - destruct (py_delitem h pv e) as [h0|]; [|done]. simpl.
    intros [Hle _]%remove_loop_count_bounds. lia.
  - intros Hrest. constructor; [done|]. by apply (IH h n h').
Qed.

(** A run of the remover that counts nothing found nothing. *)
Lemma remove_endpoints_zero_inv es h root h1 :
  remove_endpoints es h root = Ok (h1, 0) →
  py_contains h "paths" root = Ok false
  ∨ ∃ pv len, py_getitem h root "paths" = Ok pv
              ∧ py_len h pv = Ok len
              ∧ Forall (λ e, py_contains h e pv = Ok false) es.
Proof.
  unfold remove_endpoints.
  destruct (py_contains h "paths" root) as [[]|]; simpl; [|by left|done].
  destruct (py_getitem h root "paths") as [pv|] eqn:Hget; [|done]. simpl.
  destruct (py_len h pv) as [len|] eqn:Hlen; [|done]. simpl.
  destruct (remove_loop root es h 0) as [[h' n']|] eqn:Hloop; [|done]. simpl.
  destruct (py_getitem h' root "paths") as [pv'|]; [|done]. simpl.
  destruct (py_len h' pv'); [|done]. simpl. intros [= <- ->].
  right. exists pv, len. split_and!; [done..|].
  by apply (remove_loop_zero_inv root pv es h 0 h').
Qed.

Lemma remove_endpoints_nothing_found es h root :
  py_contains h "paths" root = Ok false
  ∨ (∃ pv len, py_getitem h root "paths" = Ok pv
               ∧ py_len h pv = Ok len
               ∧ Forall (λ e, py_contains h e pv = Ok false) es) →
  remove_endpoints es h root = Ok (h, 0).
Proof.
  unfold remove_endpoints. intros [->|(pv & len & Hget & Hlen & Hall)]; [done|].
  assert (py_contains h "paths" root = Ok true) as ->.
  { destruct root as [| | | | |r]; try done. simpl in *.
    destruct (h !! r) as [[rd|]|]; try done.
    destruct (dict_lookup (KStr "paths") rd) eqn:Hlk; [|done].
    f_equal. apply bool_decide_eq_true_2, dict_lookup_is_Some.
    by rewrite Hlk. }
  simpl. rewrite Hget. simpl. rewrite Hlen. simpl.
  rewrite (remove_loop_no_hit _ pv) by done. simpl.
  rewrite Hget. simpl. by rewrite Hlen.
Qed.

Lemma second_pass es py_repr h1 root today h2 :
  "info" ∉ es → "description" ∉ es →
  remove_endpoints es h1 root = Ok (h1, 0) →
  annotate py_repr h1 root today = Ok h2 →
  remove_endpoints es h2 root = Ok (h2, 0).
Proof.
  intros Hi Hd Hzero Hann.
  pose proof (annotate_objects _ _ _ _ _ Hann) as Hobj.
  destruct (annotate_Ok_inv _ _ _ _ _ Hann) as (r & rd & -> & Hr & _).
  assert (∀ l, VRef r = VRef l → is_Some (h1 !! l)) as Hroot
    by (intros l [= <-]; eauto).
  destruct (reads_after_annotate h1 h2 (VRef r) "paths" Hobj Hroot
              ltac:(done) ltac:(done)) as (Hin & Hget & _).
  apply remove_endpoints_nothing_found.
  apply remove_endpoints_zero_inv in Hzero
    as [Hno|(pv & len & Hpv & Hlen & Hall)].
  - left. by rewrite Hin.
  - right.
    assert (∀ l, pv = VRef l → is_Some (h1 !! l)) as Halloc.
    { intros l ->. simpl in Hlen. destruct (h1 !! l); [by eauto|done]. }
    destruct (reads_after_annotate h1 h2 pv "paths" Hobj Halloc
                ltac:(done) ltac:(done)) as (_ & _ & Hlen2).
    destruct (Hlen2 len Hlen) as [len' Hlen'].
    exists pv, len'. split_and!; [by rewrite Hget|done|].
    rewrite Forall_forall in Hall. apply Forall_forall. intros e He.
    destruct (reads_after_annotate h1 h2 pv e Hobj Halloc) as (-> & _).
    + by intros ->.
    + by intros ->.
    + by apply Hall.
Qed.

(** X14.  Run on the document they left, lines 79-99 return again and the
    remover finds nothing: it counts zero and changes nothing, and only the
    annotator writes (a further note).  This holds for every document on
    which the first run returns, aliases included. *)
Theorem second_run_removes_nothing py_repr h swagger_data day1 day2 h2 n :
  clean_document py_repr h swagger_data day1 = Ok (h2, n) →
  remove_endpoints unused_endpoints h2 swagger_data = Ok (h2, 0)
  ∧ ∃ h3, annotate py_repr h2 swagger_data day2 = Ok h3
          ∧ clean_document py_repr h2 swagger_data day2 = Ok (h3, 0).
Proof.
  intros (h1 & Hrem & Hann)%clean_document_Ok.
  pose proof (remove_endpoints_twice _ _ _ _ _ paths_not_unused
                unused_endpoints_NoDup Hrem) as Hzero.
  assert (remove_endpoints unused_endpoints h2 swagger_data = Ok (h2, 0))
    as Hzero2.
  { apply (second_pass unused_endpoints py_repr h1 swagger_data day1);
      [| |done..];
      apply unused_endpoints_not_reserved;
      [apply list_elem_of_further, list_elem_of_here
      |do 2 apply list_elem_of_further; apply list_elem_of_here]. }
  split; [done|].
  apply annotate_shape in Hann
    as (r & rd2 & i & idd2 & -> & Hr & Hinfo & Hi & _).
  eexists. split.
  - apply (annotate_info_present _ _ _ _ _ _ _ Hr Hinfo Hi).
  - apply clean_document_Ok. eexists. split; [done|].
    apply (annotate_info_present _ _ _ _ _ _ _ Hr Hinfo Hi).
Qed.

Lemma second_run_removes_nothing_witness :
  ∃ h2 n h3,
    clean_document no_repr info_alias_heap (VRef 1) "2025-01-15" = Ok (h2, n)
    ∧ remove_endpoints unused_endpoints h2 (VRef 1) = Ok (h2, 0)
    ∧ clean_document no_repr h2 (VRef 1) "2025-01-16" = Ok (h3, 0).
Proof.
  destruct (clean_document no_repr info_alias_heap (VRef 1) "2025-01-15")
    as [[h2 n]|] eqn:Hrun; [|by vm_compute in Hrun].
  destruct (second_run_removes_nothing no_repr _ _ _ "2025-01-16" _ _ Hrun)
    as (Hzero & h3 & _ & Hrun2).
  by exists h2, n, h3.
Defined.

(** ** The report tells the counts apart *)

Lemma unlines_cons l ls : unlines (l :: ls) = l +:+ nl +:+ unlines ls.
Proof. reflexivity. Qed.

Lemma string_app_cons x (a b : string) :
  String x a +:+ b = String x (a +:+ b).
Proof. reflexivity. Qed.

Lemma string_app_assoc (a b c : string) : (a +:+ b) +:+ c = a +:+ (b +:+ c).
Proof.
  induction a as [|x a IH]; [done|]. rewrite !string_app_cons. by f_equal.
Qed.

Lemma string_app_inv_head (p a b : string) : p +:+ a = p +:+ b → a = b.
Proof.
  induction p as [|x p IH]; [done|]. rewrite !string_app_cons.
  intros [= H]. auto.
Qed.

Lemma string_app_length (a b : string) :
  String.length (a +:+ b) = String.length a + String.length b.
Proof.
  induction a as [|x a IH]; [done|]. rewrite string_app_cons. simpl.
  by rewrite IH.
Qed.

Lemma string_app_inv_tail (t : string) : ∀ a b : string,
  a +:+ t = b +:+ t → a = b.
Proof.
  induction a as [|x a IH]; intros [|y b] Heq.
  - done.
  - apply (f_equal String.length) in Heq.
    rewrite !string_app_length in Heq. simpl in Heq. lia.
  - apply (f_equal String.length) in Heq.
    rewrite !string_app_length in Heq. simpl in Heq. lia.
  - rewrite !string_app_cons in Heq. injection Heq as -> Heq.
    f_equal. by apply IH.
Qed.

(** X15.  For one reading of the clock and one backup path, two reports
    are equal only if they state the same number of removals: the report
    determines [removed_count]. *)
Theorem report_determines_removed_count now es backup n n' :
  report_content now es n backup = report_content now es n' backup →
  n = n'.
Proof.
  unfold report_content, report_summary. intros Heq.
  rewrite <- !app_comm_cons in Heq. rewrite !unlines_cons in Heq.
  do 10 apply string_app_inv_head in Heq.
  rewrite !string_app_assoc in Heq.
  apply string_app_inv_head, string_app_inv_tail in Heq.
  by apply (inj pretty) in Heq.
Qed.

Lemma report_determines_removed_count_witness :
  report_content "2025-01-15 09:30:00" unused_endpoints 2 "backup.yaml"
  = report_content "2025-01-15 09:30:00" unused_endpoints 2 "backup.yaml"
  ∧ 2 = 2.
Proof.
  split; [reflexivity|].
  apply (report_determines_removed_count "2025-01-15 09:30:00"
           unused_endpoints "backup.yaml" 2 2).
  reflexivity.
Defined.
